(** * A shallow embedding of the Wykop API client (wykop/wykop_api.py)

    The client is one Python class, [WykopAPI], with a constructor and three
    methods: [authenticate], [make_request] and [get_entries_by_tag].  The
    methods mutate the object (the token) and talk to an HTTP server through
    an [httpx.Client].  Here the object is a record, a method is a function
    in a state-and-exception monad over that record, and the HTTP client is
    a log of the requests handed to it together with a transport function
    that answers them.

    Python strings are embedded as [string]; one character stands for one
    code point below 256.  Python integers are [Z].  Values decoded from
    JSON are the inductive type [pyobj] (numbers with a fractional part are
    left out of the embedding).  [close], which only releases the HTTP
    client, is not modelled. *)

From Stdlib Require Import ZArith String Ascii List Bool Lia DecimalString.
Import ListNotations.
Local Open Scope list_scope.
Local Open Scope string_scope.
Local Set Warnings "-register-all".

(** ** Python string operations used by the client *)

Module Str.

Definition empty (s : string) : bool :=
  match s with EmptyString => true | String _ _ => false end.

(** [s.startswith(p)] *)
Fixpoint startswith (s p : string) {struct p} : bool :=
  match p with
  | EmptyString => true
  | String a p' =>
      match s with
      | EmptyString => false
      | String b s' => Ascii.eqb a b && startswith s' p'
      end
  end.

(** [s.endswith(p)]: [p] closes [s] when it is [s] itself or closes the
    tail of [s]. *)
Fixpoint endswith (s p : string) : bool :=
  (s =? p) ||
  match s with
  | EmptyString => false
  | String _ s' => endswith s' p
  end.

(** [s[:-1]]: everything but the last character; the empty string stays
    empty. *)
Fixpoint drop_last (s : string) : string :=
  match s with
  | EmptyString => EmptyString
  | String c s' =>
      match s' with
      | EmptyString => EmptyString
      | String _ _ => String c (drop_last s')
      end
  end.

(** [str.isspace] on one code point below 256: tab, line feed, vertical
    tab, form feed, carriage return, the four separators 28..31, space,
    next line (133) and no-break space (160). *)
Definition isspace (c : ascii) : bool :=
  let n := nat_of_ascii c in
  (((9 <=? n) && (n <=? 13)) || ((28 <=? n) && (n <=? 32))
   || (n =? 133) || (n =? 160))%nat.

Fixpoint lstrip (s : string) : string :=
  match s with
  | EmptyString => EmptyString
  | String c s' => if isspace c then lstrip s' else s
  end.

Fixpoint rstrip (s : string) : string :=
  match s with
  | EmptyString => EmptyString
  | String c s' =>
      let r := rstrip s' in
      if isspace c && empty r then EmptyString else String c r
  end.

(** [s.strip()] *)
Definition strip (s : string) : string := rstrip (lstrip s).

Definition is_ascii_char (c : ascii) : bool := (nat_of_ascii c <? 128)%nat.

Fixpoint is_ascii (s : string) : bool :=
  match s with
  | EmptyString => true
  | String c s' => is_ascii_char c && is_ascii s'
  end.

Definition upper_char (c : ascii) : ascii :=
  let n := nat_of_ascii c in
  if ((97 <=? n) && (n <=? 122))%nat then ascii_of_nat (n - 32) else c.

(** [s.upper()].  Exact on ASCII strings.  Code points 128..255 are left
    alone here, whereas Python sends some of them out of the 8-bit range;
    no such string is mapped to an ASCII word by either (see
    [upper_verb_is_ascii] below for this side). *)
Fixpoint upper (s : string) : string :=
  match s with
  | EmptyString => EmptyString
  | String c s' => String (upper_char c) (upper s')
  end.

(** [str(n)] for an integer. *)
Definition of_int (n : Z) : string := NilZero.string_of_int (Z.to_int n).

(** All characters of [s] are white space. *)
Fixpoint all_space (s : string) : bool :=
  match s with
  | EmptyString => true
  | String c s' => isspace c && all_space s'
  end.

Definition first_char (s : string) : option ascii :=
  match s with EmptyString => None | String c _ => Some c end.

Fixpoint last_char (s : string) : option ascii :=
  match s with
  | EmptyString => None
  | String c s' =>
      match s' with
      | EmptyString => Some c
      | String _ _ => last_char s'
      end
  end.

End Str.

(** ** Python objects, exceptions and results *)

(** What [response.json()] can return, and what a query or a JSON body is
    built from.  A dict is an association list in insertion order; a
    decoded dict binds each key once. *)
Inductive pyobj : Type :=
| PNone
| PBool (b : bool)
| PInt (n : Z)
| PStr (s : string)
| PList (items : list pyobj)
| PDict (entries : list (string * pyobj)).

Definition dict : Type := list (string * pyobj).

(** The exceptions that can leave a method of the client. *)
Inductive exn : Type :=
| Exception (msg : string)
| ValueError (msg : string)
| KeyError (key : string)
| TypeError
| AttributeError
| JSONDecodeError
| ValidationError
| HTTPStatusError (status : Z) (body : string)
| TransportError.

Inductive result (A : Type) : Type :=
| Ok (a : A)
| Raise (e : exn).
Arguments Ok {A} a.
Arguments Raise {A} e.

Definition rbind {A B : Type} (r : result A) (k : A -> result B) : result B :=
  match r with
  | Ok a => k a
  | Raise e => Raise e
  end.

Module Py.

(** Truth value of an object, as tested by [if x:] and [not x]. *)
Definition truthy (v : pyobj) : bool :=
  match v with
  | PNone => false
  | PBool b => b
  | PInt n => negb (n =? 0)%Z
  | PStr s => negb (Str.empty s)
  | PList items => match items with [] => false | _ :: _ => true end
  | PDict entries => match entries with [] => false | _ :: _ => true end
  end.

(** An [Optional[int]] argument as an object. *)
Definition of_opt_int (o : option Z) : pyobj :=
  match o with
  | None => PNone
  | Some n => PInt n
  end.

Fixpoint lookup (k : string) (d : dict) : option pyobj :=
  match d with
  | [] => None
  | (k', v) :: d' => if k' =? k then Some v else lookup k d'
  end.

(** [d[k] = v]: an existing key keeps its place, a new one goes last. *)
Fixpoint set (k : string) (v : pyobj) (d : dict) : dict :=
  match d with
  | [] => [(k, v)]
  | (k', v') :: d' =>
      if k' =? k then (k, v) :: d' else (k', v') :: set k v d'
  end.

(** [v[k]] with a string key. *)
Definition getitem (v : pyobj) (k : string) : result pyobj :=
  match v with
  | PDict d =>
      match lookup k d with
      | Some x => Ok x
      | None => Raise (KeyError k)
      end
  | _ => Raise TypeError
  end.

(** [v.get(k)]: only a dict has the method. *)
Definition get (v : pyobj) (k : string) : result pyobj :=
  match v with
  | PDict d =>
      match lookup k d with
      | Some x => Ok x
      | None => Ok PNone
      end
  | _ => Raise AttributeError
  end.

Fixpoint chars (s : string) : list pyobj :=
  match s with
  | EmptyString => []
  | String c s' => PStr (String c EmptyString) :: chars s'
  end.

(** The sequence a [for] loop runs over. *)
Definition iter (v : pyobj) : result (list pyobj) :=
  match v with
  | PList items => Ok items
  | PDict d => Ok (map (fun kv => PStr (fst kv)) d)
  | PStr s => Ok (chars s)
  | _ => Raise TypeError
  end.

End Py.

(** ** The HTTP side: requests, responses, transport *)

Inductive Verb : Type := GET | POST | PUT | DELETE | PATCH.

(** A header value is a literal string, or the f-string made of the word
    Bearer, a space and the token object. *)
Inductive header_value : Type :=
| Plain (s : string)
| Bearer (token : pyobj).

Record Request : Type := mkRequest {
  verb : Verb;
  url : string;
  headers : list (string * header_value);
  params : option dict;
  json_body : option dict;
  follow_redirects : bool
}.

(** A response as the client reads it: [json] is what [response.json()]
    returns, [None] when the body does not decode. *)
Record Response : Type := mkResponse {
  status_code : Z;
  text : string;
  json : option pyobj
}.

(** The transport answers a request, given the requests sent before it, with
    a response or with a failure of its own. *)
Definition Transport : Type := list Request -> Request -> result Response.

Definition response_json (r : Response) : result pyobj :=
  match json r with
  | Some v => Ok v
  | None => Raise JSONDecodeError
  end.

(** [response.raise_for_status()]: anything but a 2xx status raises. *)
Definition raise_for_status (r : Response) : result unit :=
  if ((200 <=? status_code r) && (status_code r <? 300))%Z
  then Ok tt
  else Raise (HTTPStatusError (status_code r) (text r)).

(** ** The client object *)

(** The fields of a [WykopAPI] instance.  [client] is the history of the
    requests handed to the [httpx.Client], oldest first. *)
Record WykopAPI : Type := mkWykopAPI {
  app_key : string;
  secret : string;
  base_url : string;
  token : pyobj;
  client : list Request
}.

Definition set_token (t : pyobj) (self : WykopAPI) : WykopAPI :=
  mkWykopAPI (app_key self) (secret self) (base_url self) t (client self).

Definition log_request (r : Request) (self : WykopAPI) : WykopAPI :=
  mkWykopAPI (app_key self) (secret self) (base_url self) (token self)
             (client self ++ [r])%list.

(** A method body: it reads and updates the object, and returns or raises. *)
Definition M (A : Type) : Type := WykopAPI -> result A * WykopAPI.

Definition ret {A : Type} (a : A) : M A := fun self => (Ok a, self).

Definition raise {A : Type} (e : exn) : M A := fun self => (Raise e, self).

Definition bind {A B : Type} (m : M A) (k : A -> M B) : M B :=
  fun self =>
    match m self with
    | (Ok a, self') => k a self'
    | (Raise e, self') => (Raise e, self')
    end.

Definition lift {A : Type} (r : result A) : M A := fun self => (r, self).

Definition read {A : Type} (f : WykopAPI -> A) : M A :=
  fun self => (Ok (f self), self).

Definition write_token (t : pyobj) : M unit :=
  fun self => (Ok tt, set_token t self).

Notation "x <- m ;; k" := (bind m (fun x => k))
  (at level 61, m at next level, right associativity).
Notation "m ;;; k" := (bind m (fun _ => k))
  (at level 61, right associativity).

Definition DEFAULT_BASE_URL : string := "https://wykop.pl/api/v3".

(** [WykopAPI.__init__] *)
Definition init (app_key secret base_url : string) : WykopAPI :=
  mkWykopAPI (Str.strip app_key) (Str.strip secret) base_url PNone [].

Definition MUST_AUTHENTICATE : string :=
  "You must authenticate first (call the `authenticate()` method)".

Definition UNSUPPORTED_METHOD : string := "Unsupported HTTP method".

Definition auth_failure_message (r : Response) : string :=
  "Failed to authenticate: " ++ Str.of_int (status_code r) ++ " - " ++ text r.

Definition JSON_HEADERS : list (string * header_value) :=
  [("Content-Type", Plain "application/json");
   ("Accept", Plain "application/json")].

(** The table [http_methods] of [make_request]. *)
Definition http_methods : list (string * Verb) :=
  [("GET", GET); ("POST", POST); ("PUT", PUT); ("DELETE", DELETE);
   ("PATCH", PATCH)].

Fixpoint find_method (m : string) (table : list (string * Verb)) : option Verb :=
  match table with
  | [] => None
  | (k, v) :: table' => if k =? m then Some v else find_method m table'
  end.

(** Lines 97 to 100 of [make_request]: the path that is glued to the base
    URL. *)
Definition normalize_endpoint (endpoint : string) : string :=
  let endpoint :=
    if negb (Str.startswith endpoint "/") then "/" ++ endpoint else endpoint in
  if Str.endswith endpoint "/" then Str.drop_last endpoint else endpoint.

Section Client.

Variable transport : Transport.

(** One call of a method of the [httpx.Client]: the request is logged and
    the transport answers it. *)
Definition send (r : Request) : M Response :=
  fun self => (transport (client self) r, log_request r self).

(** [WykopAPI.authenticate] *)
Definition authenticate : M pyobj :=
  base <- read base_url ;;
  key <- read app_key ;;
  sec <- read secret ;;
  let url := base ++ "/auth" in
  let headers := JSON_HEADERS in
  let data := [("data", PDict [("key", PStr key); ("secret", PStr sec)])] in
  response <- send (mkRequest POST url headers None (Some data) false) ;;
  response_data <- lift (response_json response) ;;
  (if (status_code response =? 200)%Z
   then
     d <- lift (Py.getitem response_data "data") ;;
     t <- lift (Py.getitem d "token") ;;
     write_token t
   else
     raise (Exception (auth_failure_message response))) ;;;
  read token.

(** [WykopAPI.make_request] *)
Definition make_request (endpoint method : string)
           (params data : option dict) : M pyobj :=
  tok <- read token ;;
  (if negb (Py.truthy tok)
   then raise (Exception MUST_AUTHENTICATE)
   else ret tt) ;;;
  let endpoint := normalize_endpoint endpoint in
  base <- read base_url ;;
  let url := base ++ endpoint in
  let headers := ("Authorization", Bearer tok) :: JSON_HEADERS in
  let method := Str.upper method in
  response <-
    match find_method method http_methods with
    | Some v =>
        if (method =? "GET") || (method =? "DELETE")
        then send (mkRequest v url headers params None true)
        else send (mkRequest v url headers None data true)
    | None => raise (ValueError UNSUPPORTED_METHOD)
    end ;;
  lift (raise_for_status response) ;;;
  lift (response_json response).

End Client.

(** ** The tag stream *)

(** A feed item is a link or an entry.  The two record classes live in
    wykop/models.py, which is not among the sources at hand: the record
    types and their validators are parameters of this section.  A validator
    returns [None] where [parse_obj_as] raises. *)
Inductive WykopItem (WykopLink WykopEntry : Type) : Type :=
| Link (l : WykopLink)
| Entry (e : WykopEntry).
Arguments Link {WykopLink WykopEntry} l.
Arguments Entry {WykopLink WykopEntry} e.

Definition parse_obj_as {A : Type} (model : pyobj -> option A) (v : pyobj)
  : result A :=
  match model v with
  | Some a => Ok a
  | None => Raise ValidationError
  end.

(** Lines 68 to 72 of [get_entries_by_tag]: the query. *)
Definition stream_params (page limit : Z) (sort type : string)
           (year month : option Z) : dict :=
  let params :=
    [("page", PInt page); ("limit", PInt limit); ("sort", PStr sort);
     ("type", PStr type)] in
  let params :=
    if Py.truthy (Py.of_opt_int year)
    then Py.set "year" (Py.of_opt_int year) params else params in
  let params :=
    if Py.truthy (Py.of_opt_int month)
    then Py.set "month" (Py.of_opt_int month) params else params in
  params.

Section Feed.

Variable transport : Transport.
Variables WykopLink WykopEntry : Type.
Variable link_model : pyobj -> option WykopLink.
Variable entry_model : pyobj -> option WykopEntry.

(** The loop of lines 75 to 81: [entries] is the list built so far. *)
Fixpoint collect (entries : list (WykopItem WykopLink WykopEntry))
         (data : list pyobj)
  : result (list (WykopItem WykopLink WykopEntry)) :=
  match data with
  | [] => Ok entries
  | entry_data :: rest =>
      rbind (Py.get entry_data "description") (fun d =>
      if Py.truthy d
      then rbind (parse_obj_as link_model entry_data) (fun l =>
           collect (entries ++ [Link l])%list rest)
      else rbind (parse_obj_as entry_model entry_data) (fun e =>
           collect (entries ++ [Entry e])%list rest))
  end.

(** [WykopAPI.get_entries_by_tag] *)
Definition get_entries_by_tag (tag_name : string) (page limit : Z)
           (sort type : string) (year month : option Z)
  : M (list (WykopItem WykopLink WykopEntry)) :=
  let endpoint := "/tags/" ++ tag_name ++ "/stream" in
  let params := stream_params page limit sort type year month in
  response <- make_request transport endpoint "GET" (Some params) None ;;
  lift (rbind (Py.getitem response "data") (fun data =>
        rbind (Py.iter data) (fun items => collect [] items))).

End Feed.

(** ** Notions used in the statements *)

(** The request [authenticate] posts (lines 33 to 36). *)
Definition auth_request (self : WykopAPI) : Request :=
  mkRequest POST (base_url self ++ "/auth") JSON_HEADERS None
    (Some [("data", PDict [("key", PStr (app_key self));
                           ("secret", PStr (secret self))])])
    false.

(** GET and DELETE carry the query, the other verbs the JSON body. *)
Definition takes_query (v : Verb) : bool :=
  match v with
  | GET | DELETE => true
  | POST | PUT | PATCH => false
  end.

(** The request [make_request] hands to the HTTP client once the method has
    been found in the table as [v] (lines 101 to 125). *)
Definition dispatched_request (self : WykopAPI) (endpoint : string) (v : Verb)
           (params data : option dict) : Request :=
  mkRequest v
    (base_url self ++ normalize_endpoint endpoint)
    (("Authorization", Bearer (token self)) :: JSON_HEADERS)
    (if takes_query v then params else None)
    (if takes_query v then None else data)
    true.

(** What [make_request] makes of the transport's answer (lines 128, 129). *)
Definition read_response (answer : result Response) : result pyobj :=
  rbind answer (fun response =>
  rbind (raise_for_status response) (fun _ => response_json response)).

(** The request [get_entries_by_tag] sends (lines 67 to 74). *)
Definition stream_request (self : WykopAPI) (tag_name : string)
           (page limit : Z) (sort type : string) (year month : option Z)
  : Request :=
  dispatched_request self ("/tags/" ++ tag_name ++ "/stream") GET
    (Some (stream_params page limit sort type year month)) None.

(** The slash [normalize_endpoint] puts in front, and the one it takes off
    the end. *)
Definition slash_when (b : bool) : string :=
  if b then "/" else EmptyString.

(** The first or the last character of [s] is white space. *)
Definition space_at_edge (s : string) : bool :=
  match Str.first_char s, Str.last_char s with
  | Some a, Some b => Str.isspace a || Str.isspace b
  | _, _ => false
  end.

(** A dict object whose description is missing, null, empty or zero sends
    the loop of [get_entries_by_tag] to the entry model; any other
    description sends it to the link model. *)
Definition has_description (entry_data : pyobj) : bool :=
  match Py.get entry_data "description" with
  | Ok d => Py.truthy d
  | Raise _ => false
  end.

Definition is_dict (v : pyobj) : bool :=
  match v with
  | PDict _ => true
  | _ => false
  end.

(** [item] is what the loop makes of [entry_data]. *)
Definition parsed_as {L E : Type} (link_model : pyobj -> option L)
           (entry_model : pyobj -> option E)
           (entry_data : pyobj) (item : WykopItem L E) : Prop :=
  match item with
  | Link l => has_description entry_data = true /\ link_model entry_data = Some l
  | Entry e => has_description entry_data = false /\ entry_model entry_data = Some e
  end.

(** The selected model accepts [entry_data]. *)
Definition validates {L E : Type} (link_model : pyobj -> option L)
           (entry_model : pyobj -> option E) (entry_data : pyobj) : Prop :=
  if has_description entry_data
  then link_model entry_data <> None
  else entry_model entry_data <> None.

(** The value the query holds for an optional integer argument. *)
Definition optional_param (o : option Z) : option pyobj :=
  match o with
  | None => None
  | Some n => if (n =? 0)%Z then None else Some (PInt n)
  end.

(** ** Sample values for the examples *)

Module Sample.

(** A transport that answers every request with [r]. *)
Definition always (r : Response) : Transport := fun _ _ => Ok r.

Definition fresh : WykopAPI := init " key " "secret" DEFAULT_BASE_URL.

Definition logged_in : WykopAPI := set_token (PStr "jwt") fresh.

Definition token_reply (t : string) : Response :=
  mkResponse 200 "{...}" (Some (PDict [("data", PDict [("token", PStr t)])])).

Definition bad_gateway : Response := mkResponse 502 "Bad Gateway" None.

Definition empty_reply : Response := mkResponse 200 "{}" (Some (PDict [])).

Definition entry1 : pyobj := PDict [("id", PInt 1); ("body", PStr "hi")].

Definition link2 : pyobj :=
  PDict [("id", PInt 2); ("description", PStr "d"); ("title", PStr "t")].

Definition blank3 : pyobj :=
  PDict [("id", PInt 3); ("description", PStr EmptyString)].

Definition stream_reply (items : list pyobj) : Response :=
  mkResponse 200 "{...}" (Some (PDict [("data", PList items)])).

(** A model that accepts every object and keeps it as it is. *)
Definition any_model (v : pyobj) : option pyobj := Some v.

End Sample.

(** ** Further notions and sample values *)

(** What no method writes after the constructor: key, secret, base URL. *)
Definition account (self : WykopAPI) : string * string * string :=
  (app_key self, secret self, base_url self).

(** The answer [r] grants the token [t]: status 200 and a decoded body with
    [t] under data, token (what lines 38 and 39 read). *)
Definition grants (r : Response) (t : pyobj) : Prop :=
  status_code r = 200%Z
  /\ exists body data,
      json r = Some body
      /\ Py.getitem body "data" = Ok data
      /\ Py.getitem data "token" = Ok t.

(** A 2xx status, as [raise_for_status] lets through. *)
Definition success (r : Response) : Prop :=
  (200 <= status_code r < 300)%Z.

(** The object is a dict that the model selected by its description
    accepts: what one turn of the loop of lines 76 to 80 needs. *)
Definition parses {L E : Type} (link_model : pyobj -> option L)
           (entry_model : pyobj -> option E) (entry_data : pyobj) : Prop :=
  is_dict entry_data = true /\ validates link_model entry_model entry_data.

Module Scenario.

(** A transport that answers the n-th request it is handed with the n-th
    response of a script, and fails once the script has run out. *)
Definition scripted (script : list Response) : Transport :=
  fun history _ =>
    match nth_error script (List.length history) with
    | Some r => Ok r
    | None => Raise TransportError
    end.

(** A transport that never answers. *)
Definition down : Transport := fun _ _ => Raise TransportError.

Definition unauthorized : Response :=
  mkResponse 401 "{...}" (Some (PDict [("error", PStr "bad key")])).

Definition not_found : Response :=
  mkResponse 404 "{...}" (Some (PDict [("error", PStr "no such tag")])).

Definition no_data : Response :=
  mkResponse 200 "{...}" (Some (PDict [("error", PStr "oops")])).

Definition no_token : Response :=
  mkResponse 200 "{...}" (Some (PDict [("data", PDict [])])).

Definition garbled : Response := mkResponse 200 "<html>" None.

(** A model that accepts the objects that have an id. *)
Definition with_id (v : pyobj) : option pyobj :=
  match Py.getitem v "id" with
  | Ok _ => Some v
  | Raise _ => None
  end.

Definition anonymous : pyobj := PDict [("body", PStr "no id")].

End Scenario.

(** ** Facts about the string operations *)

Section StringFacts.

Lemma startswith_slash_inv (s : string) :
  Str.startswith s "/" = true -> exists rest, s = String "/" rest.
Proof.
  destruct s as [|c s]; [intros H; discriminate H|].
  change (Str.startswith (String c s) "/") with (Ascii.eqb "/" c && true).
  rewrite andb_true_r. intros H. apply Ascii.eqb_eq in H. subst c.
  now exists s.
Qed.

Lemma startswith_slash_cons (rest : string) :
  Str.startswith (String "/" rest) "/" = true.
Proof.
  reflexivity.
Qed.

Lemma eqb_single (c : ascii) (s : string) :
  (String c s =? "/") = (Ascii.eqb c "/" && Str.empty s).
Proof.
  simpl. destruct (Ascii.eqb c "/"); [|reflexivity].
  now destruct s.
Qed.

Lemma endswith_cons (c : ascii) (s : string) :
  Str.endswith (String c s) "/" =
  (Ascii.eqb c "/" && Str.empty s) || Str.endswith s "/".
Proof.
  change (Str.endswith (String c s) "/")
    with ((String c s =? "/") || Str.endswith s "/").
  now rewrite eqb_single.
Qed.

Lemma endswith_empty : Str.endswith EmptyString "/" = false.
Proof. reflexivity. Qed.

(** A string that ends with a slash is its [s[:-1]] followed by the
    slash. *)
Lemma endswith_drop_last (s : string) :
  Str.endswith s "/" = true -> s = Str.drop_last s ++ "/".
Proof.
  induction s as [|c s IH]; [intros H; discriminate H|].
  rewrite endswith_cons. destruct s as [|c' s'].
  - rewrite endswith_empty, orb_false_r, andb_true_r.
    intros H. apply Ascii.eqb_eq in H. now subst c.
  - simpl Str.empty. rewrite andb_false_r, orb_false_l.
    intros H. apply IH in H.
    change (Str.drop_last (String c (String c' s')))
      with (String c (Str.drop_last (String c' s'))).
    cbn [append]. now f_equal.
Qed.

Lemma normalize_endpoint_unfold (endpoint : string) :
  let lead := slash_when (negb (Str.startswith endpoint "/")) ++ endpoint in
  normalize_endpoint endpoint =
  if Str.endswith lead "/" then Str.drop_last lead else lead.
Proof.
  unfold normalize_endpoint, slash_when.
  now destruct (Str.startswith endpoint "/").
Qed.

Lemma endswith_lead (endpoint : string) :
  Str.endswith (slash_when (negb (Str.startswith endpoint "/")) ++ endpoint) "/"
  = Str.endswith endpoint "/" || Str.empty endpoint.
Proof.
  destruct (Str.startswith endpoint "/") eqn:E;
    cbn [slash_when negb append].
  - apply startswith_slash_inv in E as [rest ->]. cbn [Str.empty].
    now rewrite orb_false_r.
  - rewrite endswith_cons. apply orb_comm.
Qed.

(** The shape of the normalised path: the endpoint with a slash in front
    when it had none is the path with a slash behind when one was taken
    off. *)
Lemma normalize_endpoint_shape (endpoint : string) :
  slash_when (negb (Str.startswith endpoint "/")) ++ endpoint =
  normalize_endpoint endpoint
    ++ slash_when (Str.endswith endpoint "/" || Str.empty endpoint).
Proof.
  rewrite normalize_endpoint_unfold. cbv zeta.
  rewrite <- endswith_lead.
  set (lead := slash_when _ ++ endpoint).
  destruct (Str.endswith lead "/") eqn:E; simpl.
  - now apply endswith_drop_last.
  - clear. induction lead as [|c l IH]; simpl; [reflexivity|].
    now rewrite <- IH.
Qed.

Lemma normalize_endpoint_leading_slash (endpoint : string) :
  endpoint <> EmptyString -> endpoint <> "/" ->
  Str.startswith (normalize_endpoint endpoint) "/" = true.
Proof.
  intros Hne Hns.
  assert (exists c rest,
             slash_when (negb (Str.startswith endpoint "/")) ++ endpoint
             = String "/" (String c rest)) as (c & rest & Hlead).
  { destruct (Str.startswith endpoint "/") eqn:E; simpl.
    - apply startswith_slash_inv in E as [rest ->].
      destruct rest as [|c rest]; [congruence|]. now exists c, rest.
    - destruct endpoint as [|c rest]; [congruence|]. now exists c, rest. }
  rewrite normalize_endpoint_unfold. cbv zeta. rewrite Hlead.
  destruct (Str.endswith _ "/").
  - change (Str.drop_last (String "/" (String c rest)))
      with (String "/" (Str.drop_last (String c rest))).
    apply startswith_slash_cons.
  - apply startswith_slash_cons.
Qed.

End StringFacts.

Section StripFacts.

Lemma lstrip_split (s : string) :
  exists l, s = l ++ Str.lstrip s /\ Str.all_space l = true.
Proof.
  induction s as [|c s (l & Hs & Hl)].
  - now exists EmptyString.
  - cbn [Str.lstrip]. destruct (Str.isspace c) eqn:Hc.
    + exists (String c l). cbn [append Str.all_space].
      rewrite Hc, Hl. split; [now f_equal|reflexivity].
    + now exists EmptyString.
Qed.

Lemma lstrip_first (s : string) (c : ascii) :
  Str.first_char (Str.lstrip s) = Some c -> Str.isspace c = false.
Proof.
  induction s as [|a s IH]; cbn [Str.lstrip]; [intros H; discriminate H|].
  destruct (Str.isspace a) eqn:Ha; [exact IH|].
  cbn [Str.first_char]. intros H. now injection H as <-.
Qed.

Lemma rstrip_split (s : string) :
  exists r, s = Str.rstrip s ++ r /\ Str.all_space r = true.
Proof.
  induction s as [|c s (r & Hs & Hr)].
  - now exists EmptyString.
  - cbn [Str.rstrip]. cbv zeta.
    destruct (Str.isspace c) eqn:Hc; cbn [andb].
    + destruct (Str.rstrip s) eqn:Es; cbn [Str.empty].
      * exists (String c s). cbn [append Str.all_space]. rewrite Hc.
        cbn [append] in Hs. rewrite Hs. now split.
      * exists r. cbn [append]. split; [now f_equal|exact Hr].
    + exists r. cbn [append]. split; [now f_equal|exact Hr].
Qed.

Lemma rstrip_last (s : string) (c : ascii) :
  Str.last_char (Str.rstrip s) = Some c -> Str.isspace c = false.
Proof.
  induction s as [|a s IH]; cbn [Str.rstrip]; [intros H; discriminate H|].
  cbv zeta. destruct (Str.rstrip s) as [|b t] eqn:Es.
  - cbn [Str.empty]. rewrite andb_true_r.
    destruct (Str.isspace a) eqn:Ha; [intros H; discriminate H|].
    cbn [Str.last_char]. intros H. now injection H as <-.
  - cbn [Str.empty]. rewrite andb_false_r.
    change (Str.last_char (String a (String b t)))
      with (Str.last_char (String b t)).
    exact IH.
Qed.

Lemma rstrip_first (s : string) (c : ascii) :
  Str.first_char (Str.rstrip s) = Some c -> Str.first_char s = Some c.
Proof.
  destruct s as [|a s]; cbn [Str.rstrip]; [intros H; discriminate H|].
  cbv zeta. destruct (Str.isspace a && Str.empty (Str.rstrip s));
    [intros H; discriminate H|exact (fun H => H)].
Qed.

(** [strip] takes white space, and nothing else, off both ends, and
    leaves none at either end. *)
Lemma strip_spec (s : string) :
  exists l r,
    s = l ++ Str.strip s ++ r
    /\ Str.all_space l = true /\ Str.all_space r = true
    /\ space_at_edge (Str.strip s) = false.
Proof.
  destruct (lstrip_split s) as (l & Hl & Hls).
  destruct (rstrip_split (Str.lstrip s)) as (r & Hr & Hrs).
  exists l, r. unfold Str.strip. repeat split; try assumption.
  - now rewrite <- Hr.
  - unfold space_at_edge.
    destruct (Str.first_char (Str.rstrip (Str.lstrip s))) as [a|] eqn:Ea;
      [|reflexivity].
    destruct (Str.last_char (Str.rstrip (Str.lstrip s))) as [b|] eqn:Eb;
      [|reflexivity].
    apply rstrip_first, lstrip_first in Ea. apply rstrip_last in Eb.
    now rewrite Ea, Eb.
Qed.

End StripFacts.

(** ** Facts about the method table *)

Section MethodFacts.

Lemma upper_char_ascii (c : ascii) :
  Str.is_ascii_char (Str.upper_char c) = true -> Str.is_ascii_char c = true.
Proof.
  destruct c as [[] [] [] [] [] [] [] []]; vm_compute;
    intros H; first [reflexivity | exact H].
Qed.

Lemma upper_ascii (s : string) :
  Str.is_ascii (Str.upper s) = true -> Str.is_ascii s = true.
Proof.
  induction s as [|c s IH]; [reflexivity|].
  cbn [Str.upper Str.is_ascii]. intros H.
  apply andb_true_iff in H as [Hc Hs].
  now rewrite (upper_char_ascii c Hc), IH.
Qed.

(** The five keys of the table, with the verb each stands for. *)
Lemma find_method_inv (m : string) (v : Verb) :
  find_method m http_methods = Some v ->
  (m = "GET" /\ v = GET) \/ (m = "POST" /\ v = POST)
  \/ (m = "PUT" /\ v = PUT) \/ (m = "DELETE" /\ v = DELETE)
  \/ (m = "PATCH" /\ v = PATCH).
Proof.
  cbn [find_method http_methods].
  repeat match goal with
         | |- (if (?k =? m) then _ else _) = _ -> _ =>
             let E := fresh "E" in
             destruct (k =? m) eqn:E;
             [apply String.eqb_eq in E; subst m; intros H;
              injection H as <-; intuition congruence|]
         end.
  intros H. discriminate H.
Qed.

Lemma find_method_query (m : string) (v : Verb) :
  find_method m http_methods = Some v ->
  (m =? "GET") || (m =? "DELETE") = takes_query v.
Proof.
  intros H. apply find_method_inv in H.
  destruct H as [[-> ->]|[[-> ->]|[[-> ->]|[[-> ->]|[-> ->]]]]]; reflexivity.
Qed.

(** Only an ASCII string is sent into the table by [upper]: the code
    points above 127, which [Str.upper] leaves alone, never matter to the
    choice of the verb. *)
Lemma upper_verb_is_ascii (method : string) (v : Verb) :
  find_method (Str.upper method) http_methods = Some v ->
  Str.is_ascii method = true.
Proof.
  intros H. apply upper_ascii. apply find_method_inv in H.
  destruct H as [[-> _]|[[-> _]|[[-> _]|[[-> _]|[-> _]]]]]; reflexivity.
Qed.

End MethodFacts.

(** ** The three ways through [make_request] *)

Ltac run_method :=
  cbv beta iota zeta delta
      [make_request authenticate bind read ret raise lift send write_token].

Section RequestFacts.

Variable transport : Transport.

(** The guard of lines 93 to 96: a false token stops the call before
    anything else happens. *)
Lemma make_request_guard (self : WykopAPI) (endpoint method : string)
      (params data : option dict) :
  Py.truthy (token self) = false ->
  make_request transport endpoint method params data self
  = (Raise (Exception MUST_AUTHENTICATE), self).
Proof.
  intros Htok. run_method. now rewrite Htok.
Qed.

(** Lines 126, 127: a method that is not a key of the table once in upper
    case. *)
Lemma make_request_unsupported (self : WykopAPI) (endpoint method : string)
      (params data : option dict) :
  Py.truthy (token self) = true ->
  find_method (Str.upper method) http_methods = None ->
  make_request transport endpoint method params data self
  = (Raise (ValueError UNSUPPORTED_METHOD), self).
Proof.
  intros Htok Hm. run_method. now rewrite Htok, Hm.
Qed.

(** Lines 117 to 129: a method found in the table. *)
Lemma make_request_dispatch (self : WykopAPI) (endpoint method : string)
      (params data : option dict) (v : Verb) :
  Py.truthy (token self) = true ->
  find_method (Str.upper method) http_methods = Some v ->
  let request := dispatched_request self endpoint v params data in
  make_request transport endpoint method params data self
  = (read_response (transport (client self) request),
     log_request request self).
Proof.
  intros Htok Hm request. run_method. rewrite Htok, Hm.
  rewrite (find_method_query _ _ Hm). cbn [negb].
  subst request. unfold dispatched_request, read_response.
  destruct (takes_query v);
    (destruct (transport (client self) _) as [response|e];
     [cbn [rbind]; destruct (raise_for_status response) as [[]|e];
      reflexivity | reflexivity]).
Qed.

End RequestFacts.

(** ** Authentication *)

Section AuthenticateFacts.

Variable transport : Transport.

(** Line 37 comes before the test of the status: a body that does not
    decode ends the call there, whatever the status. *)
Lemma authenticate_undecodable (self : WykopAPI) (response : Response) :
  transport (client self) (auth_request self) = Ok response ->
  json response = None ->
  authenticate transport self
  = (Raise JSONDecodeError, log_request (auth_request self) self).
Proof.
  unfold auth_request. intros Hsend Hjson. run_method.
  rewrite Hsend. unfold response_json. now rewrite Hjson.
Qed.

(** Lines 40 to 43: a status other than 200 on a body that decodes. *)
Lemma authenticate_failure (self : WykopAPI) (response : Response)
      (body : pyobj) :
  transport (client self) (auth_request self) = Ok response ->
  json response = Some body ->
  status_code response <> 200%Z ->
  authenticate transport self
  = (Raise (Exception (auth_failure_message response)),
     log_request (auth_request self) self).
Proof.
  unfold auth_request. intros Hsend Hjson Hstatus. run_method.
  rewrite Hsend. unfold response_json. rewrite Hjson.
  apply Z.eqb_neq in Hstatus. now rewrite Hstatus.
Qed.

(** Lines 38, 39 and 45: status 200 and a body that holds a token. *)
Lemma authenticate_success (self : WykopAPI) (response : Response)
      (body data t : pyobj) :
  transport (client self) (auth_request self) = Ok response ->
  status_code response = 200%Z ->
  json response = Some body ->
  Py.getitem body "data" = Ok data ->
  Py.getitem data "token" = Ok t ->
  authenticate transport self
  = (Ok t, set_token t (log_request (auth_request self) self)).
Proof.
  unfold auth_request. intros Hsend Hstatus Hjson Hdata Htoken. run_method.
  rewrite Hsend. unfold response_json. rewrite Hjson, Hstatus.
  cbn [Z.eqb Pos.eqb]. now rewrite Hdata, Htoken.
Qed.

(** C2.  When the answer to the auth call has status 200 and its decoded
    body holds the string [t] under data, token, [authenticate] returns
    [t] and leaves the client with [t] as its token (and with the auth
    request in its history, nothing else changed). *)
Theorem authenticate_stores_token (self : WykopAPI) (response : Response)
        (body data : pyobj) (t : string) :
  transport (client self) (auth_request self) = Ok response ->
  status_code response = 200%Z ->
  json response = Some body ->
  Py.getitem body "data" = Ok data ->
  Py.getitem data "token" = Ok (PStr t) ->
  authenticate transport self
  = (Ok (PStr t), set_token (PStr t) (log_request (auth_request self) self))
  /\ token (snd (authenticate transport self)) = PStr t.
Proof.
  intros Hsend Hstatus Hjson Hdata Htoken.
  rewrite (authenticate_success self response body data (PStr t)
             Hsend Hstatus Hjson Hdata Htoken).
  split; reflexivity.
Qed.

End AuthenticateFacts.

(** C3.  The auth call answered with status 502 and the body Bad Gateway,
    which is not JSON: [authenticate] raises the decoder's error, not the
    exception that carries the status and the body. *)
Theorem authenticate_undecodable_error_body :
  authenticate (Sample.always Sample.bad_gateway) Sample.fresh
  = (Raise JSONDecodeError, log_request (auth_request Sample.fresh) Sample.fresh)
  /\ Exception (auth_failure_message Sample.bad_gateway)
     = Exception "Failed to authenticate: 502 - Bad Gateway".
Proof.
  split; reflexivity.
Qed.

(** ** The guards of [make_request] *)

Section GuardFacts.

Variable transport : Transport.

(** C10.  A client whose token is the empty string is refused by
    [make_request] like one that never authenticated: same exception,
    nothing sent, nothing changed. *)
Theorem empty_token_refused (self : WykopAPI) (endpoint method : string)
        (params data : option dict) :
  token self = PStr EmptyString ->
  make_request transport endpoint method params data self
  = (Raise (Exception MUST_AUTHENTICATE), self)
  /\ fst (make_request transport endpoint method params data self)
     = fst (make_request transport endpoint method params data
              (set_token PNone self)).
Proof.
  intros Htok.
  rewrite !make_request_guard; [now split|reflexivity|now rewrite Htok].
Qed.

(** The scenario of C10 from the start: an auth answer that carries an
    empty token is stored, and the next request is refused. *)
Lemma empty_token_after_authenticate (self : WykopAPI) (response : Response)
      (body data : pyobj) (endpoint method : string)
      (params payload : option dict) :
  transport (client self) (auth_request self) = Ok response ->
  status_code response = 200%Z ->
  json response = Some body ->
  Py.getitem body "data" = Ok data ->
  Py.getitem data "token" = Ok (PStr EmptyString) ->
  (authenticate transport ;;;
   make_request transport endpoint method params payload) self
  = (Raise (Exception MUST_AUTHENTICATE),
     set_token (PStr EmptyString) (log_request (auth_request self) self)).
Proof.
  intros Hsend Hstatus Hjson Hdata Htoken. unfold bind at 1.
  rewrite (authenticate_success transport self response body data
             (PStr EmptyString) Hsend Hstatus Hjson Hdata Htoken).
  now apply make_request_guard.
Qed.

(** C5, amended.  On a client that holds a token, a method whose upper
    case form is not a key of the table is refused with the ValueError of
    line 127, and nothing is sent. *)
Theorem unsupported_method_refused (self : WykopAPI)
        (endpoint method : string) (params data : option dict) :
  Py.truthy (token self) = true ->
  find_method (Str.upper method) http_methods = None ->
  make_request transport endpoint method params data self
  = (Raise (ValueError UNSUPPORTED_METHOD), self)
  /\ client (snd (make_request transport endpoint method params data self))
     = client self.
Proof.
  intros Htok Hm.
  rewrite (make_request_unsupported transport self endpoint method params
             data Htok Hm).
  now split.
Qed.

(** C8.  On a client that holds a token, a method whose upper case form
    is a key of the table is sent with the verb the table gives for it,
    and the call ends as the answer decides: it does not raise the
    ValueError of line 127 when the transport answers. *)
Theorem method_case_insensitive (self : WykopAPI) (endpoint method : string)
        (params data : option dict) (v : Verb) :
  Py.truthy (token self) = true ->
  find_method (Str.upper method) http_methods = Some v ->
  let request := dispatched_request self endpoint v params data in
  make_request transport endpoint method params data self
  = (read_response (transport (client self) request),
     log_request request self)
  /\ verb request = v
  /\ forall response,
      transport (client self) request = Ok response ->
      fst (make_request transport endpoint method params data self)
      <> Raise (ValueError UNSUPPORTED_METHOD).
Proof.
  intros Htok Hm request.
  rewrite (make_request_dispatch transport self endpoint method params data
             v Htok Hm).
  fold request. repeat split.
  intros response Hsend. cbn [fst]. rewrite Hsend.
  unfold read_response, raise_for_status, response_json. cbn [rbind].
  destruct ((200 <=? status_code response) && (status_code response <? 300))%Z;
    [destruct (json response)|]; discriminate.
Qed.

(** C4, amended.  For an endpoint other than the empty string and the
    lone slash, sent on a client that holds a token with a method of the
    table: the URL of the request is the base URL followed by the
    normalised path; that path begins with a slash; it is the endpoint
    with a slash put in front when it had none and one slash taken off
    the end when it had one.  The endpoints tags/popular and
    /tags/popular/ make the same call. *)
Theorem endpoint_normalised (self : WykopAPI) (endpoint method : string)
        (params data : option dict) (v : Verb) :
  endpoint <> EmptyString ->
  endpoint <> "/" ->
  Py.truthy (token self) = true ->
  find_method (Str.upper method) http_methods = Some v ->
  let path := normalize_endpoint endpoint in
  map url (client (snd (make_request transport endpoint method params data
                          self)))
  = (map url (client self) ++ [(base_url self ++ path)%string])%list
  /\ Str.startswith path "/" = true
  /\ slash_when (negb (Str.startswith endpoint "/")) ++ endpoint
     = path ++ slash_when (Str.endswith endpoint "/")
  /\ make_request transport "tags/popular" method params data self
     = make_request transport "/tags/popular/" method params data self.
Proof.
  intros Hne Hns Htok Hm path. subst path.
  split; [|split; [|split; [|reflexivity]]].
  - rewrite (make_request_dispatch transport self endpoint method params
               data v Htok Hm).
    cbn [snd log_request client]. rewrite map_app. reflexivity.
  - now apply normalize_endpoint_leading_slash.
  - rewrite normalize_endpoint_shape.
    destruct endpoint; [congruence|]. cbn [Str.empty].
    now rewrite orb_false_r.
Qed.

End GuardFacts.

(** ** The tag stream *)

Section FeedFacts.

Variable transport : Transport.
Variables L E : Type.
Variable link_model : pyobj -> option L.
Variable entry_model : pyobj -> option E.

Local Abbreviation get_entries :=
  (get_entries_by_tag transport L E link_model entry_model).

Lemma get_entries_guard (self : WykopAPI) (tag_name : string)
      (page limit : Z) (sort type : string) (year month : option Z) :
  Py.truthy (token self) = false ->
  get_entries tag_name page limit sort type year month self
  = (Raise (Exception MUST_AUTHENTICATE), self).
Proof.
  intros Htok. unfold get_entries_by_tag, bind.
  now rewrite make_request_guard.
Qed.

(** With a token, the call sends the stream request, whatever comes
    back. *)
Lemma get_entries_sends (self : WykopAPI) (tag_name : string)
      (page limit : Z) (sort type : string) (year month : option Z) :
  Py.truthy (token self) = true ->
  let request := stream_request self tag_name page limit sort type year month in
  snd (get_entries tag_name page limit sort type year month self)
  = log_request request self.
Proof.
  intros Htok request. unfold get_entries_by_tag, bind.
  rewrite (make_request_dispatch transport self _ "GET" _ None GET Htok eq_refl).
  fold request. now destruct (read_response _).
Qed.

Lemma collect_step (entry_data : pyobj) (A : Type) (a b : result A) :
  is_dict entry_data = true ->
  rbind (Py.get entry_data "description")
        (fun d => if Py.truthy d then a else b)
  = if has_description entry_data then a else b.
Proof.
  destruct entry_data; try (intros H; discriminate H). intros _.
  unfold has_description, Py.get.
  now destruct (Py.lookup "description" entries).
Qed.

(** The loop keeps what it had, and adds one item per object, in order,
    each from the model its description selects. *)
Lemma collect_ok (data : list pyobj) :
  Forall (fun entry_data => is_dict entry_data = true) data ->
  Forall (validates link_model entry_model) data ->
  forall entries,
  exists items,
    collect L E link_model entry_model entries data = Ok (entries ++ items)%list
    /\ Forall2 (parsed_as link_model entry_model) data items.
Proof.
  induction data as [|entry_data rest IH]; intros Hdict Hvalid entries.
  - exists []. split; [now rewrite app_nil_r|constructor].
  - inversion Hdict as [|? ? Hd Hds]; subst.
    inversion Hvalid as [|? ? Hv Hvs]; subst.
    cbn [collect]. rewrite (collect_step entry_data _ _ _ Hd).
    unfold validates in Hv. unfold parse_obj_as.
    destruct (has_description entry_data) eqn:Hdesc.
    + destruct (link_model entry_data) as [l|] eqn:Hl; [|congruence].
      cbn [rbind].
      destruct (IH Hds Hvs (entries ++ [Link l])%list) as (items & Hrun & Hall).
      exists (Link l :: items). rewrite Hrun, <- app_assoc.
      split; [reflexivity|]. constructor; [|exact Hall]. now split.
    + destruct (entry_model entry_data) as [e|] eqn:He; [|congruence].
      cbn [rbind].
      destruct (IH Hds Hvs (entries ++ [Entry e])%list) as (items & Hrun & Hall).
      exists (Entry e :: items). rewrite Hrun, <- app_assoc.
      split; [reflexivity|]. constructor; [|exact Hall]. now split.
Qed.

(** C6, amended.  On a client that holds a token, when the stream request
    is answered with a 2xx status and a body whose data field is a list of
    dict objects, each accepted by the model its description selects,
    [get_entries_by_tag] returns one item per object, in the order of the
    list: a link when the object has a description that is true (present,
    and not null, empty, zero or false), an entry otherwise. *)
Theorem stream_items_in_order (self : WykopAPI) (tag_name : string)
        (page limit : Z) (sort type : string) (year month : option Z)
        (response : Response) (body : pyobj) (objects : list pyobj) :
  Py.truthy (token self) = true ->
  transport (client self)
            (stream_request self tag_name page limit sort type year month)
  = Ok response ->
  (200 <= status_code response < 300)%Z ->
  json response = Some body ->
  Py.getitem body "data" = Ok (PList objects) ->
  Forall (fun entry_data => is_dict entry_data = true) objects ->
  Forall (validates link_model entry_model) objects ->
  exists items,
    fst (get_entries tag_name page limit sort type year month self) = Ok items
    /\ length items = length objects
    /\ Forall2 (parsed_as link_model entry_model) objects items.
Proof.
  intros Htok Hsend Hstatus Hjson Hdata Hdict Hvalid.
  destruct (collect_ok objects Hdict Hvalid []) as (items & Hrun & Hall).
  exists items. split; [|split; [|exact Hall]].
  - unfold get_entries_by_tag, bind.
    rewrite (make_request_dispatch transport self _ "GET" _ None GET Htok
               eq_refl).
    unfold stream_request in Hsend. rewrite Hsend.
    unfold read_response. cbn [rbind].
    unfold raise_for_status, response_json.
    assert (((200 <=? status_code response)
             && (status_code response <? 300))%Z = true) as Hok
        by (apply andb_true_iff; split; [apply Z.leb_le|apply Z.ltb_lt]; lia).
    rewrite Hok.
    cbn [rbind]. rewrite Hjson. cbn [rbind lift fst]. rewrite Hdata.
    cbn [rbind Py.iter]. exact Hrun.
  - symmetry. exact (Forall2_length Hall).
Qed.

(** C7, amended.  On a client that holds a token, [get_entries_by_tag]
    sends one GET request whose query holds page, limit, sort and type as
    given; it holds year (month) with the given value when that value is
    supplied and is not zero, and has no year (month) otherwise. *)
Theorem stream_query_parameters (self : WykopAPI) (tag_name : string)
        (page limit : Z) (sort type : string) (year month : option Z) :
  Py.truthy (token self) = true ->
  exists request query,
    client (snd (get_entries tag_name page limit sort type year month self))
    = (client self ++ [request])%list
    /\ verb request = GET
    /\ params request = Some query
    /\ Py.lookup "page" query = Some (PInt page)
    /\ Py.lookup "limit" query = Some (PInt limit)
    /\ Py.lookup "sort" query = Some (PStr sort)
    /\ Py.lookup "type" query = Some (PStr type)
    /\ Py.lookup "year" query = optional_param year
    /\ Py.lookup "month" query = optional_param month.
Proof.
  intros Htok.
  exists (stream_request self tag_name page limit sort type year month),
         (stream_params page limit sort type year month).
  rewrite (get_entries_sends self tag_name page limit sort type year month
             Htok).
  split; [reflexivity|]. split; [reflexivity|]. split; [reflexivity|].
  unfold stream_params, optional_param, Py.of_opt_int, Py.truthy.
  destruct year as [y|]; [destruct (y =? 0)%Z|];
    (destruct month as [m|]; [destruct (m =? 0)%Z|]);
    cbn [negb]; repeat split; reflexivity.
Qed.

(** C1.  A client whose token is [None] is refused by [make_request] and
    by [get_entries_by_tag] with the exception of line 94; the client is
    left as it was, so that nothing has been sent. *)
Theorem unauthenticated_request_refused (self : WykopAPI) :
  token self = PNone ->
  (forall endpoint method params data,
      make_request transport endpoint method params data self
      = (Raise (Exception MUST_AUTHENTICATE), self))
  /\ (forall tag_name page limit sort type year month,
         get_entries tag_name page limit sort type year month self
         = (Raise (Exception MUST_AUTHENTICATE), self)).
Proof.
  intros Htok. split.
  - intros. apply make_request_guard. now rewrite Htok.
  - intros. apply get_entries_guard. now rewrite Htok.
Qed.

End FeedFacts.

(** ** The constructor *)

Section ConstructorFacts.

Variable transport : Transport.

(** [authenticate] hands exactly one request to the HTTP client, however
    the call ends. *)
Lemma authenticate_sends (self : WykopAPI) :
  client (snd (authenticate transport self))
  = (client self ++ [auth_request self])%list.
Proof.
  unfold auth_request. run_method.
  destruct (transport (client self) _) as [response|]; [|reflexivity].
  destruct (response_json response) as [body|]; [|reflexivity].
  destruct (status_code response =? 200)%Z; [|reflexivity].
  destruct (Py.getitem body "data") as [data|]; [|reflexivity].
  destruct (Py.getitem data "token"); reflexivity.
Qed.

(** C9.  The constructor stores the key and the secret stripped, and the
    base URL as given; [authenticate] on the new client posts the
    stripped values to the auth URL.  The stripped value is the given one
    without the white space at its two ends. *)
Theorem constructor_strips_credentials (key sec base : string) :
  let self := init key sec base in
  app_key self = Str.strip key
  /\ secret self = Str.strip sec
  /\ base_url self = base
  /\ client (snd (authenticate transport self))
     = [mkRequest POST (base ++ "/auth") JSON_HEADERS None
          (Some [("data", PDict [("key", PStr (Str.strip key));
                                 ("secret", PStr (Str.strip sec))])])
          false]
  /\ (exists l r, key = l ++ Str.strip key ++ r
                  /\ Str.all_space l = true /\ Str.all_space r = true
                  /\ space_at_edge (Str.strip key) = false)
  /\ (exists l r, sec = l ++ Str.strip sec ++ r
                  /\ Str.all_space l = true /\ Str.all_space r = true
                  /\ space_at_edge (Str.strip sec) = false).
Proof.
  intros self. split; [reflexivity|]. split; [reflexivity|].
  split; [reflexivity|]. split; [apply authenticate_sends|].
  split; apply strip_spec.
Qed.

End ConstructorFacts.

(** ** The statements at sample inputs *)

(** A client fresh from the constructor has no token. *)
Lemma init_has_no_token (key sec base : string) :
  token (init key sec base) = PNone.
Proof. reflexivity. Qed.

Lemma unauthenticated_request_refused_witness :
  token Sample.fresh = PNone
  /\ make_request (Sample.always Sample.empty_reply) "tags/popular" "GET"
                  None None Sample.fresh
     = (Raise (Exception MUST_AUTHENTICATE), Sample.fresh)
  /\ get_entries_by_tag (Sample.always Sample.empty_reply) pyobj pyobj
       Sample.any_model Sample.any_model "rocq" 1 25 "best" "all" None None
       Sample.fresh
     = (Raise (Exception MUST_AUTHENTICATE), Sample.fresh).
Proof.
  split; [reflexivity|].
  destruct (unauthenticated_request_refused
              (Sample.always Sample.empty_reply) pyobj pyobj
              Sample.any_model Sample.any_model Sample.fresh eq_refl)
    as [Hrequest Hentries].
  split; [apply Hrequest|apply Hentries].
Defined.

Lemma authenticate_stores_token_witness :
  authenticate (Sample.always (Sample.token_reply "jwt")) Sample.fresh
  = (Ok (PStr "jwt"),
     set_token (PStr "jwt")
       (log_request (auth_request Sample.fresh) Sample.fresh))
  /\ token (snd (authenticate (Sample.always (Sample.token_reply "jwt"))
                   Sample.fresh))
     = PStr "jwt".
Proof.
  apply (authenticate_stores_token
           (Sample.always (Sample.token_reply "jwt")) Sample.fresh
           (Sample.token_reply "jwt")
           (PDict [("data", PDict [("token", PStr "jwt")])])
           (PDict [("token", PStr "jwt")]) "jwt");
    reflexivity.
Defined.

Lemma empty_token_refused_witness :
  token (set_token (PStr EmptyString) Sample.fresh) = PStr EmptyString
  /\ make_request (Sample.always Sample.empty_reply) "tags/popular" "GET"
                  None None (set_token (PStr EmptyString) Sample.fresh)
     = (Raise (Exception MUST_AUTHENTICATE),
        set_token (PStr EmptyString) Sample.fresh).
Proof.
  split; [reflexivity|].
  apply (empty_token_refused (Sample.always Sample.empty_reply)
           (set_token (PStr EmptyString) Sample.fresh)
           "tags/popular" "GET" None None eq_refl).
Defined.

(** C5 as first stated fails: the string get is not a key of the table,
    and yet the call goes out, as a GET. *)
Lemma lowercase_get_is_dispatched :
  find_method "get" http_methods = None
  /\ make_request (Sample.always Sample.empty_reply) "tags/popular" "get"
                  None None Sample.logged_in
     = (Ok (PDict []),
        log_request
          (dispatched_request Sample.logged_in "tags/popular" GET None None)
          Sample.logged_in).
Proof.
  split; reflexivity.
Qed.

Lemma unsupported_method_refused_witness :
  find_method (Str.upper "TRACE") http_methods = None
  /\ make_request (Sample.always Sample.empty_reply) "tags/popular" "TRACE"
                  None None Sample.logged_in
     = (Raise (ValueError UNSUPPORTED_METHOD), Sample.logged_in).
Proof.
  split; [reflexivity|].
  apply (unsupported_method_refused (Sample.always Sample.empty_reply)
           Sample.logged_in "tags/popular" "TRACE" None None
           eq_refl eq_refl).
Defined.

Lemma method_case_insensitive_witness :
  find_method "Post" http_methods = None
  /\ find_method (Str.upper "Post") http_methods = Some POST
  /\ make_request (Sample.always Sample.empty_reply) "tags/popular" "Post"
                  None (Some []) Sample.logged_in
     = (Ok (PDict []),
        log_request
          (dispatched_request Sample.logged_in "tags/popular" POST None
             (Some []))
          Sample.logged_in).
Proof.
  split; [reflexivity|]. split; [reflexivity|].
  apply (method_case_insensitive (Sample.always Sample.empty_reply)
           Sample.logged_in "tags/popular" "Post" None (Some []) POST
           eq_refl eq_refl).
Defined.

(** C4 as first stated fails: the empty endpoint is normalised to the empty
    path, which has no slash in front, and the URL is the base URL. *)
Lemma empty_endpoint_has_no_leading_slash :
  normalize_endpoint EmptyString = EmptyString
  /\ Str.startswith (normalize_endpoint EmptyString) "/" = false
  /\ map url (client (snd (make_request (Sample.always Sample.empty_reply)
                             EmptyString "GET" None None Sample.logged_in)))
     = [DEFAULT_BASE_URL].
Proof.
  repeat split.
Qed.

Lemma endpoint_normalised_witness :
  map url (client (snd (make_request (Sample.always Sample.empty_reply)
                          "tags/popular/" "GET" None None Sample.logged_in)))
  = ["https://wykop.pl/api/v3/tags/popular"]
  /\ Str.startswith (normalize_endpoint "tags/popular/") "/" = true.
Proof.
  destruct (endpoint_normalised (Sample.always Sample.empty_reply)
              Sample.logged_in "tags/popular/" "GET" None None GET)
    as (Hurl & Hslash & _); try reflexivity; try (intros H; discriminate H).
  split; [exact Hurl|exact Hslash].
Defined.

(** The two endpoints of the specification, side by side. *)
Example popular_tags_same_path :
  normalize_endpoint "tags/popular" = "/tags/popular"
  /\ normalize_endpoint "/tags/popular/" = "/tags/popular"
  /\ normalize_endpoint "a//" = "/a/".
Proof. repeat split. Qed.

(** C6 as first stated fails: an object whose description is present and
    empty becomes an entry. *)
Lemma blank_description_is_entry :
  Py.getitem Sample.blank3 "description" = Ok (PStr EmptyString)
  /\ fst (get_entries_by_tag
            (Sample.always (Sample.stream_reply [Sample.blank3]))
            pyobj pyobj Sample.any_model Sample.any_model
            "rocq" 1 25 "best" "all" None None Sample.logged_in)
     = Ok [Entry Sample.blank3].
Proof.
  split; reflexivity.
Qed.

Lemma stream_items_in_order_witness :
  exists items,
    fst (get_entries_by_tag
           (Sample.always (Sample.stream_reply [Sample.entry1; Sample.link2]))
           pyobj pyobj Sample.any_model Sample.any_model
           "rocq" 1 25 "best" "all" None None Sample.logged_in)
    = Ok items
    /\ length items = 2
    /\ Forall2 (parsed_as Sample.any_model Sample.any_model)
               [Sample.entry1; Sample.link2] items.
Proof.
  apply (stream_items_in_order
           (Sample.always (Sample.stream_reply [Sample.entry1; Sample.link2]))
           pyobj pyobj Sample.any_model Sample.any_model Sample.logged_in
           "rocq" 1 25 "best" "all" None None
           (Sample.stream_reply [Sample.entry1; Sample.link2])
           (PDict [("data", PList [Sample.entry1; Sample.link2])])
           [Sample.entry1; Sample.link2]);
    try reflexivity.
  - cbn [status_code Sample.stream_reply]. lia.
  - repeat constructor.
  - repeat constructor; unfold validates; cbn; intros H; discriminate H.
Defined.

(** The mocked stream of the specification: an entry, then a link. *)
Example mocked_stream :
  fst (get_entries_by_tag
         (Sample.always (Sample.stream_reply [Sample.entry1; Sample.link2]))
         pyobj pyobj Sample.any_model Sample.any_model
         "rocq" 1 25 "best" "all" None None Sample.logged_in)
  = Ok [Entry Sample.entry1; Link Sample.link2].
Proof. reflexivity. Qed.

(** C7 as first stated fails: year and month are supplied, as zero, and
    the query has neither. *)
Lemma year_zero_is_dropped :
  map params
      (client (snd (get_entries_by_tag (Sample.always Sample.empty_reply)
                      pyobj pyobj Sample.any_model Sample.any_model
                      "rocq" 1 25 "best" "all" (Some 0%Z) (Some 0%Z)
                      Sample.logged_in)))
  = [Some [("page", PInt 1); ("limit", PInt 25); ("sort", PStr "best");
           ("type", PStr "all")]].
Proof.
  reflexivity.
Qed.

Lemma stream_query_parameters_witness :
  Py.truthy (token Sample.logged_in) = true
  /\ exists request query,
      client (snd (get_entries_by_tag (Sample.always Sample.empty_reply)
                     pyobj pyobj Sample.any_model Sample.any_model
                     "rocq" 2 10 "all" "link" (Some 2024%Z) None
                     Sample.logged_in))
      = (client Sample.logged_in ++ [request])%list
      /\ verb request = GET
      /\ params request = Some query
      /\ Py.lookup "page" query = Some (PInt 2)
      /\ Py.lookup "limit" query = Some (PInt 10)
      /\ Py.lookup "sort" query = Some (PStr "all")
      /\ Py.lookup "type" query = Some (PStr "link")
      /\ Py.lookup "year" query = Some (PInt 2024)
      /\ Py.lookup "month" query = None.
Proof.
  split; [reflexivity|].
  apply (stream_query_parameters (Sample.always Sample.empty_reply)
           pyobj pyobj Sample.any_model Sample.any_model Sample.logged_in
           "rocq" 2 10 "all" "link" (Some 2024%Z) None eq_refl).
Defined.

(** The query with both optional arguments given. *)
Example query_with_year_and_month :
  stream_params 1 25 "best" "all" (Some 2024%Z) (Some 3%Z)
  = [("page", PInt 1); ("limit", PInt 25); ("sort", PStr "best");
     ("type", PStr "all"); ("year", PInt 2024); ("month", PInt 3)].
Proof. reflexivity. Qed.

(** Stripping and upper-casing at sample strings. *)
Example strip_upper_samples :
  Str.strip "  a b  " = "a b"
  /\ app_key Sample.fresh = "key"
  /\ Str.upper "get" = "GET"
  /\ Str.upper "Patch" = "PATCH".
Proof. repeat split. Qed.

(** ** Authentication: failures, history, composition *)

Section AuthenticateMore.

Variable transport : Transport.

Lemma authenticate_granted (self : WykopAPI) (response : Response)
      (t : pyobj) :
  transport (client self) (auth_request self) = Ok response ->
  grants response t ->
  authenticate transport self
  = (Ok t, set_token t (log_request (auth_request self) self)).
Proof.
  intros Hsend (Hstatus & body & data & Hjson & Hdata & Htoken).
  exact (authenticate_success transport self response body data t
           Hsend Hstatus Hjson Hdata Htoken).
Qed.

(** Line 39 when the body lacks what it reads. *)
Lemma authenticate_bad_body (self : WykopAPI) (response : Response)
      (body : pyobj) (e : exn) :
  transport (client self) (auth_request self) = Ok response ->
  status_code response = 200%Z ->
  json response = Some body ->
  rbind (Py.getitem body "data") (fun d => Py.getitem d "token") = Raise e ->
  authenticate transport self
  = (Raise e, log_request (auth_request self) self).
Proof.
  unfold auth_request. intros Hsend Hstatus Hjson Hbody. run_method.
  rewrite Hsend. unfold response_json. rewrite Hjson, Hstatus.
  cbn [Z.eqb Pos.eqb].
  destruct (Py.getitem body "data") as [d|e']; cbn [rbind] in Hbody.
  - now rewrite Hbody.
  - now injection Hbody as ->.
Qed.

(** X1.  An auth answer with a status other than 200 and a body that
    decodes: [authenticate] raises the exception whose message is the
    fixed prefix, the status in decimal, a dash and the body text; the
    token and the account are left as they were. *)
Theorem authenticate_rejected (self : WykopAPI) (response : Response)
        (body : pyobj) :
  transport (client self) (auth_request self) = Ok response ->
  json response = Some body ->
  status_code response <> 200%Z ->
  fst (authenticate transport self)
  = Raise (Exception ("Failed to authenticate: "
                      ++ Str.of_int (status_code response)
                      ++ " - " ++ text response))
  /\ token (snd (authenticate transport self)) = token self
  /\ account (snd (authenticate transport self)) = account self.
Proof.
  intros Hsend Hjson Hstatus.
  rewrite (authenticate_failure transport self response body
             Hsend Hjson Hstatus).
  repeat split.
Qed.

(** X2.  An auth answer with status 200 whose body is a dict without a
    data key raises KeyError on data; with a data dict that has no token
    key it raises KeyError on token.  The token is left as it was. *)
Theorem authenticate_missing_key (self : WykopAPI) (response : Response)
        (d : dict) :
  transport (client self) (auth_request self) = Ok response ->
  status_code response = 200%Z ->
  json response = Some (PDict d) ->
  (Py.lookup "data" d = None \/
   exists inner, Py.lookup "data" d = Some (PDict inner)
                 /\ Py.lookup "token" inner = None) ->
  fst (authenticate transport self)
  = Raise (KeyError (match Py.lookup "data" d with
                     | None => "data"
                     | Some _ => "token"
                     end))
  /\ token (snd (authenticate transport self)) = token self.
Proof.
  intros Hsend Hstatus Hjson Hkeys.
  rewrite (authenticate_bad_body self response (PDict d)
             (KeyError (match Py.lookup "data" d with
                        | None => "data"
                        | Some _ => "token"
                        end)) Hsend Hstatus Hjson).
  - split; reflexivity.
  - cbn [Py.getitem rbind].
    destruct Hkeys as [Hnone|(inner & Hsome & Hnone)].
    + now rewrite Hnone.
    + rewrite Hsome. cbn [rbind Py.getitem]. now rewrite Hnone.
Qed.

(** X3.  Whatever the transport does, [authenticate] hands it exactly one
    request, the auth request; it never writes the key, the secret or the
    base URL; and it writes the token only when it returns, to the value it
    returns: a call that raises leaves the token as it was. *)
Theorem authenticate_writes_token_only_on_return (self : WykopAPI) :
  client (snd (authenticate transport self))
  = (client self ++ [auth_request self])%list
  /\ account (snd (authenticate transport self)) = account self
  /\ match fst (authenticate transport self) with
     | Ok t => token (snd (authenticate transport self)) = t
     | Raise _ => token (snd (authenticate transport self)) = token self
     end.
Proof.
  unfold auth_request. run_method.
  destruct (transport (client self) _) as [response|]; [|now repeat split].
  destruct (response_json response) as [body|]; [|now repeat split].
  destruct (status_code response =? 200)%Z; [|now repeat split].
  destruct (Py.getitem body "data") as [data|]; [|now repeat split].
  destruct (Py.getitem data "token"); now repeat split.
Qed.

(** X4.  Authenticating twice: when the first auth answer grants [t1] and
    the second, asked after it, grants [t2], the client ends with [t2] as
    its token, and two auth requests in its history. *)
Theorem reauthentication_replaces_token (self : WykopAPI)
        (first second : Response) (t1 t2 : pyobj) :
  transport (client self) (auth_request self) = Ok first ->
  grants first t1 ->
  transport (client self ++ [auth_request self])%list (auth_request self)
  = Ok second ->
  grants second t2 ->
  (authenticate transport ;;; authenticate transport) self
  = (Ok t2,
     set_token t2
       (log_request (auth_request self)
          (log_request (auth_request self) self))).
Proof.
  intros Hsend1 Hgrant1 Hsend2 Hgrant2. unfold bind.
  rewrite (authenticate_granted self first t1 Hsend1 Hgrant1).
  exact (authenticate_granted
           (set_token t1 (log_request (auth_request self) self))
           second t2 Hsend2 Hgrant2).
Qed.

(** X5.  Authenticating and then asking: when the auth answer grants a
    token that is true and the method is in the table, the request that
    follows carries that token in its Authorization header and goes to the
    transport after the auth request. *)
Theorem request_carries_granted_token (self : WykopAPI) (response : Response)
        (t : pyobj) (endpoint method : string) (params data : option dict)
        (v : Verb) :
  transport (client self) (auth_request self) = Ok response ->
  grants response t ->
  Py.truthy t = true ->
  find_method (Str.upper method) http_methods = Some v ->
  let self' := set_token t (log_request (auth_request self) self) in
  let request := dispatched_request self' endpoint v params data in
  (authenticate transport ;;;
   make_request transport endpoint method params data) self
  = (read_response
       (transport (client self ++ [auth_request self])%list request),
     log_request request self')
  /\ headers request
     = [("Authorization", Bearer t);
        ("Content-Type", Plain "application/json");
        ("Accept", Plain "application/json")].
Proof.
  intros Hsend Hgrant Htrue Hm self' request. unfold bind.
  rewrite (authenticate_granted self response t Hsend Hgrant).
  split; [|reflexivity].
  exact (make_request_dispatch transport self' endpoint method params data v
           Htrue Hm).
Qed.

End AuthenticateMore.

(** ** [make_request]: what it sends and what it returns *)

Section RequestMore.

Variable transport : Transport.

Lemma upper_char_idempotent (c : ascii) :
  Str.upper_char (Str.upper_char c) = Str.upper_char c.
Proof.
  destruct c as [[] [] [] [] [] [] [] []]; reflexivity.
Qed.

Lemma upper_idempotent (s : string) : Str.upper (Str.upper s) = Str.upper s.
Proof.
  induction s as [|c s IH]; [reflexivity|].
  cbn [Str.upper]. now rewrite upper_char_idempotent, IH.
Qed.

Lemma make_request_by_upper (self : WykopAPI) (endpoint m1 m2 : string)
      (params data : option dict) :
  Str.upper m1 = Str.upper m2 ->
  make_request transport endpoint m1 params data self
  = make_request transport endpoint m2 params data self.
Proof.
  intros H. run_method. now rewrite H.
Qed.

(** X6.  Whatever its arguments, [make_request] leaves the token and the
    account as they were, and hands the transport at most one request: none
    when the token is false or the method is not in the table, and
    otherwise the one request built from the stored token. *)
Theorem make_request_sends_at_most_once (self : WykopAPI)
        (endpoint method : string) (params data : option dict) :
  token (snd (make_request transport endpoint method params data self))
  = token self
  /\ account (snd (make_request transport endpoint method params data self))
     = account self
  /\ client (snd (make_request transport endpoint method params data self))
     = if Py.truthy (token self)
       then match find_method (Str.upper method) http_methods with
            | Some v =>
                (client self
                 ++ [dispatched_request self endpoint v params data])%list
            | None => client self
            end
       else client self.
Proof.
  destruct (Py.truthy (token self)) eqn:Htok.
  - destruct (find_method (Str.upper method) http_methods) as [v|] eqn:Hm.
    + rewrite (make_request_dispatch transport self endpoint method params
                 data v Htok Hm).
      repeat split.
    + rewrite (make_request_unsupported transport self endpoint method params
                 data Htok Hm).
      repeat split.
  - rewrite (make_request_guard transport self endpoint method params data
               Htok).
    repeat split.
Qed.

(** X7.  An answer with a status outside 200..299 makes [make_request]
    raise the status error with that status and body, also when the body
    would decode; the request stays in the history. *)
Theorem make_request_status_error (self : WykopAPI)
        (endpoint method : string) (params data : option dict) (v : Verb)
        (response : Response) :
  Py.truthy (token self) = true ->
  find_method (Str.upper method) http_methods = Some v ->
  transport (client self) (dispatched_request self endpoint v params data)
  = Ok response ->
  ~ success response ->
  make_request transport endpoint method params data self
  = (Raise (HTTPStatusError (status_code response) (text response)),
     log_request (dispatched_request self endpoint v params data) self).
Proof.
  intros Htok Hm Hsend Hstatus.
  rewrite (make_request_dispatch transport self endpoint method params data v
             Htok Hm).
  rewrite Hsend. unfold read_response. cbn [rbind]. unfold raise_for_status.
  destruct ((200 <=? status_code response) && (status_code response <? 300))%Z
    eqn:Hrange; [|reflexivity].
  exfalso. apply Hstatus. unfold success.
  apply andb_true_iff in Hrange as [Hlo Hhi].
  apply Z.leb_le in Hlo. apply Z.ltb_lt in Hhi. lia.
Qed.

(** X8.  An answer with a status in 200..299 makes [make_request] return
    the decoded body, whatever kind of JSON value it is, and raise the
    decoder's error when the body does not decode. *)
Theorem make_request_returns_body (self : WykopAPI)
        (endpoint method : string) (params data : option dict) (v : Verb)
        (response : Response) :
  Py.truthy (token self) = true ->
  find_method (Str.upper method) http_methods = Some v ->
  transport (client self) (dispatched_request self endpoint v params data)
  = Ok response ->
  success response ->
  fst (make_request transport endpoint method params data self)
  = match json response with
    | Some body => Ok body
    | None => Raise JSONDecodeError
    end.
Proof.
  intros Htok Hm Hsend Hstatus.
  rewrite (make_request_dispatch transport self endpoint method params data v
             Htok Hm).
  rewrite Hsend. unfold read_response. cbn [rbind fst].
  unfold raise_for_status, response_json.
  assert (((200 <=? status_code response)
           && (status_code response <? 300))%Z = true) as Hok
      by (unfold success in Hstatus; apply andb_true_iff;
          split; [apply Z.leb_le|apply Z.ltb_lt]; lia).
  rewrite Hok. reflexivity.
Qed.

(** X9.  The argument a verb does not use is dropped: with GET or DELETE
    the call is the same whatever [data] is, with POST, PUT or PATCH it is
    the same whatever [params] is. *)
Theorem make_request_drops_unused_argument (self : WykopAPI)
        (endpoint method : string) (params data params' data' : option dict)
        (v : Verb) :
  find_method (Str.upper method) http_methods = Some v ->
  make_request transport endpoint method params data self
  = make_request transport endpoint method
      (if takes_query v then params else params')
      (if takes_query v then data' else data) self.
Proof.
  intros Hm. destruct (Py.truthy (token self)) eqn:Htok.
  - rewrite !(make_request_dispatch transport self endpoint method _ _ v
                Htok Hm).
    unfold dispatched_request. now destruct (takes_query v).
  - now rewrite !make_request_guard.
Qed.

(** X10.  When the transport fails instead of answering, [make_request]
    raises that failure as it is; the request stays in the history. *)
Theorem make_request_transport_failure (self : WykopAPI)
        (endpoint method : string) (params data : option dict) (v : Verb)
        (e : exn) :
  Py.truthy (token self) = true ->
  find_method (Str.upper method) http_methods = Some v ->
  transport (client self) (dispatched_request self endpoint v params data)
  = Raise e ->
  make_request transport endpoint method params data self
  = (Raise e,
     log_request (dispatched_request self endpoint v params data) self).
Proof.
  intros Htok Hm Hsend.
  rewrite (make_request_dispatch transport self endpoint method params data v
             Htok Hm).
  now rewrite Hsend.
Qed.

(** X11.  Two spellings of a method that agree once in upper case make the
    same call, whether it is sent or refused; in particular a method and
    its upper case form do. *)
Theorem make_request_ignores_case (self : WykopAPI)
        (endpoint m1 m2 : string) (params data : option dict) :
  Str.upper m1 = Str.upper m2 ->
  make_request transport endpoint m1 params data self
  = make_request transport endpoint m2 params data self
  /\ make_request transport endpoint m1 params data self
     = make_request transport endpoint (Str.upper m1) params data self.
Proof.
  intros H. split.
  - now apply make_request_by_upper.
  - apply make_request_by_upper. symmetry. apply upper_idempotent.
Qed.

End RequestMore.

(** ** More on the normalised path *)

Section PathFacts.

Lemma app_slash_not_empty (t : string) : Str.empty (t ++ "/") = false.
Proof. now destruct t. Qed.

Lemma eqb_double_slash (c : ascii) (t : string) :
  (String c (t ++ "/") =? "//") = (Ascii.eqb c "/" && Str.empty t).
Proof.
  change (String c (t ++ "/") =? "//")
    with (if Ascii.eqb c "/" then (t ++ "/" =? "/") else false).
  destruct (Ascii.eqb c "/"); [|reflexivity]. cbn [andb].
  destruct t as [|a t]; [reflexivity|].
  cbn [append Str.empty]. rewrite eqb_single, app_slash_not_empty.
  apply andb_false_r.
Qed.

Lemma endswith_double_cons (c : ascii) (s : string) :
  Str.endswith (String c s) "//"
  = (String c s =? "//") || Str.endswith s "//".
Proof. reflexivity. Qed.

(** A string ends with two slashes when what is before its last slash ends
    with one. *)
Lemma endswith_app_slash (t : string) :
  Str.endswith (t ++ "/") "//" = Str.endswith t "/".
Proof.
  induction t as [|c t IH]; [reflexivity|].
  cbn [append]. rewrite endswith_double_cons, endswith_cons, IH.
  now rewrite eqb_double_slash.
Qed.

Lemma normalize_endpoint_fixed (path : string) :
  Str.startswith path "/" = true ->
  Str.endswith path "/" = false ->
  normalize_endpoint path = path.
Proof.
  intros Hs He. unfold normalize_endpoint. rewrite Hs. cbn [negb].
  now rewrite He.
Qed.

Lemma normalize_endpoint_empty_or_slash (endpoint : string) :
  normalize_endpoint endpoint = EmptyString
  \/ Str.startswith (normalize_endpoint endpoint) "/" = true.
Proof.
  destruct (string_dec endpoint EmptyString) as [->|Hne]; [now left|].
  destruct (string_dec endpoint "/") as [->|Hns]; [now left|].
  right. now apply normalize_endpoint_leading_slash.
Qed.

Lemma normalize_endpoint_no_trailing_slash (endpoint : string) :
  Str.endswith endpoint "//" = false ->
  Str.endswith (normalize_endpoint endpoint) "/" = false.
Proof.
  intros Hdouble. rewrite normalize_endpoint_unfold. cbv zeta.
  set (lead := slash_when (negb (Str.startswith endpoint "/")) ++ endpoint).
  assert (Str.endswith lead "//" = false) as Hlead.
  { subst lead. destruct (Str.startswith endpoint "/") eqn:Hs;
      cbn [negb slash_when append]; [exact Hdouble|].
    rewrite endswith_double_cons, Hdouble, orb_false_r.
    change (String "/" endpoint =? "//") with (endpoint =? "/").
    destruct (endpoint =? "/") eqn:E; [|reflexivity].
    apply String.eqb_eq in E. subst endpoint. discriminate Hs. }
  destruct (Str.endswith lead "/") eqn:He; [|exact He].
  pose proof (endswith_drop_last lead He) as Hsplit.
  rewrite Hsplit, endswith_app_slash in Hlead. exact Hlead.
Qed.

(** X12.  For an endpoint that does not end with two slashes, the
    normalised path does not end with a slash, and normalising it again
    changes nothing.  (With two slashes at the end only one is taken off.) *)
Theorem normalize_endpoint_idempotent (endpoint : string) :
  Str.endswith endpoint "//" = false ->
  Str.endswith (normalize_endpoint endpoint) "/" = false
  /\ normalize_endpoint (normalize_endpoint endpoint)
     = normalize_endpoint endpoint.
Proof.
  intros Hdouble.
  pose proof (normalize_endpoint_no_trailing_slash endpoint Hdouble) as He.
  split; [exact He|].
  destruct (normalize_endpoint_empty_or_slash endpoint) as [->|Hs];
    [reflexivity|].
  now apply normalize_endpoint_fixed.
Qed.

Lemma endswith_stream (s : string) :
  Str.endswith (s ++ "/stream") "/" = false.
Proof.
  induction s as [|c s IH]; [reflexivity|].
  cbn [append]. rewrite endswith_cons, IH, orb_false_r.
  destruct s; cbn [append Str.empty]; apply andb_false_r.
Qed.

(** The stream endpoint is already in normal form, whatever the tag. *)
Lemma stream_endpoint_normal (tag_name : string) :
  normalize_endpoint ("/tags/" ++ tag_name ++ "/stream")
  = "/tags/" ++ tag_name ++ "/stream".
Proof.
  apply normalize_endpoint_fixed; [reflexivity|].
  change ("/tags/" ++ tag_name ++ "/stream")
    with (("/tags/" ++ tag_name) ++ "/stream").
  apply endswith_stream.
Qed.

End PathFacts.

(** ** The tag stream: the request, malformed answers, all or nothing *)

Section FeedMore.

Variable transport : Transport.
Variables L E : Type.
Variable link_model : pyobj -> option L.
Variable entry_model : pyobj -> option E.

Local Abbreviation get_entries :=
  (get_entries_by_tag transport L E link_model entry_model).

(** Lines 74 to 81 once the stream request has been answered with a 2xx
    status and a body that decodes. *)
Lemma get_entries_answered (self : WykopAPI) (tag_name : string)
      (page limit : Z) (sort type : string) (year month : option Z)
      (response : Response) (body : pyobj) :
  Py.truthy (token self) = true ->
  transport (client self)
            (stream_request self tag_name page limit sort type year month)
  = Ok response ->
  success response ->
  json response = Some body ->
  fst (get_entries tag_name page limit sort type year month self)
  = rbind (Py.getitem body "data") (fun data =>
    rbind (Py.iter data) (fun items =>
    collect L E link_model entry_model [] items)).
Proof.
  intros Htok Hsend Hstatus Hjson.
  unfold get_entries_by_tag, bind.
  rewrite (make_request_dispatch transport self _ "GET" _ None GET Htok
             eq_refl).
  unfold stream_request in Hsend. rewrite Hsend.
  unfold read_response. cbn [rbind].
  unfold raise_for_status, response_json.
  assert (((200 <=? status_code response)
           && (status_code response <? 300))%Z = true) as Hok
      by (unfold success in Hstatus; apply andb_true_iff;
          split; [apply Z.leb_le|apply Z.ltb_lt]; lia).
  rewrite Hok, Hjson. reflexivity.
Qed.

Lemma get_not_dict (entry_data : pyobj) (k : string) :
  is_dict entry_data = false -> Py.get entry_data k = Raise AttributeError.
Proof.
  destruct entry_data; try reflexivity. intros H. discriminate H.
Qed.

(** One turn of the loop on an object it cannot take. *)
Lemma collect_reject (bad : pyobj) (rest : list pyobj)
      (entries : list (WykopItem L E)) :
  ~ parses link_model entry_model bad ->
  collect L E link_model entry_model entries (bad :: rest)
  = Raise (if is_dict bad then ValidationError else AttributeError).
Proof.
  intros Hbad. cbn [collect].
  destruct (is_dict bad) eqn:Hd.
  - rewrite (collect_step bad _ _ _ Hd). unfold parse_obj_as.
    unfold parses, validates in Hbad.
    destruct (has_description bad).
    + destruct (link_model bad); [|reflexivity].
      exfalso. apply Hbad. split; [exact Hd|intros H; discriminate H].
    + destruct (entry_model bad); [|reflexivity].
      exfalso. apply Hbad. split; [exact Hd|intros H; discriminate H].
  - now rewrite (get_not_dict bad _ Hd).
Qed.

(** The loop stops at the first object it cannot take, and gives up what
    it had built. *)
Lemma collect_first_bad (good : list pyobj) (bad : pyobj)
      (rest : list pyobj) :
  Forall (parses link_model entry_model) good ->
  ~ parses link_model entry_model bad ->
  forall entries,
    collect L E link_model entry_model entries (good ++ bad :: rest)%list
    = Raise (if is_dict bad then ValidationError else AttributeError).
Proof.
  intros Hgood Hbad.
  induction Hgood as [|g good [Hd Hv] _ IH]; intros entries.
  - now apply collect_reject.
  - cbn [app collect]. rewrite (collect_step g _ _ _ Hd).
    unfold validates in Hv. unfold parse_obj_as.
    destruct (has_description g).
    + destruct (link_model g); [|congruence]. apply IH.
    + destruct (entry_model g); [|congruence]. apply IH.
Qed.

(** When the loop returns, every object was a dict its model accepted. *)
Lemma collect_ok_inv (data : list pyobj) :
  forall entries out,
    collect L E link_model entry_model entries data = Ok out ->
    Forall (parses link_model entry_model) data
    /\ exists items, out = (entries ++ items)%list
                     /\ Forall2 (parsed_as link_model entry_model) data items.
Proof.
  induction data as [|entry_data rest IH]; intros entries out Hrun.
  - cbn [collect] in Hrun. injection Hrun as <-.
    split; [constructor|]. exists []. split; [now rewrite app_nil_r|constructor].
  - destruct (is_dict entry_data) eqn:Hd.
    + cbn [collect] in Hrun. rewrite (collect_step entry_data _ _ _ Hd) in Hrun.
      unfold parse_obj_as in Hrun.
      destruct (has_description entry_data) eqn:Hdesc.
      * destruct (link_model entry_data) as [l|] eqn:Hl;
          [|discriminate Hrun].
        cbn [rbind] in Hrun.
        destruct (IH _ _ Hrun) as (Hall & items & -> & Hitems).
        split.
        -- constructor; [|exact Hall]. split; [exact Hd|].
           unfold validates. rewrite Hdesc, Hl. intros H. discriminate H.
        -- exists (Link l :: items). rewrite <- app_assoc.
           split; [reflexivity|]. constructor; [|exact Hitems].
           cbn [parsed_as]. now split.
      * destruct (entry_model entry_data) as [e|] eqn:He;
          [|discriminate Hrun].
        cbn [rbind] in Hrun.
        destruct (IH _ _ Hrun) as (Hall & items & -> & Hitems).
        split.
        -- constructor; [|exact Hall]. split; [exact Hd|].
           unfold validates. rewrite Hdesc, He. intros H. discriminate H.
        -- exists (Entry e :: items). rewrite <- app_assoc.
           split; [reflexivity|]. constructor; [|exact Hitems].
           cbn [parsed_as]. now split.
    + cbn [collect] in Hrun. rewrite (get_not_dict entry_data _ Hd) in Hrun.
      discriminate Hrun.
Qed.

Lemma parses_forall_split (data : list pyobj) :
  Forall (parses link_model entry_model) data ->
  Forall (fun entry_data => is_dict entry_data = true) data
  /\ Forall (validates link_model entry_model) data.
Proof.
  induction 1 as [|x l [Hd Hv] _ [IHd IHv]]; split; constructor; assumption.
Qed.

End FeedMore.

Section FeedExtras.

Variable transport : Transport.
Variables L E : Type.
Variable link_model : pyobj -> option L.
Variable entry_model : pyobj -> option E.

Local Abbreviation get_entries :=
  (get_entries_by_tag transport L E link_model entry_model).

(** X13.  Whatever its arguments, [get_entries_by_tag] leaves the token and
    the account as they were.  With a token that is true it hands the
    transport exactly one request: a GET, following redirects, without a
    JSON body, to the base URL followed by /tags/, the tag name as given
    and /stream; with a token that is false it sends nothing. *)
Theorem get_entries_request (self : WykopAPI) (tag_name : string)
        (page limit : Z) (sort type : string) (year month : option Z) :
  let after := snd (get_entries tag_name page limit sort type year month self) in
  token after = token self
  /\ account after = account self
  /\ client after
     = if Py.truthy (token self)
       then (client self
             ++ [mkRequest GET
                   (base_url self ++ "/tags/" ++ tag_name ++ "/stream")%string
                   (("Authorization", Bearer (token self)) :: JSON_HEADERS)
                   (Some (stream_params page limit sort type year month))
                   None true])%list
       else client self.
Proof.
  cbv zeta. destruct (Py.truthy (token self)) eqn:Htok.
  - rewrite (get_entries_sends transport L E link_model entry_model self
               tag_name page limit sort type year month Htok).
    unfold stream_request, dispatched_request.
    rewrite stream_endpoint_normal. repeat split.
  - rewrite (get_entries_guard transport L E link_model entry_model self
               tag_name page limit sort type year month Htok).
    repeat split.
Qed.

(** X14.  A 2xx stream answer whose body is a dict without a data key
    makes [get_entries_by_tag] raise KeyError on data. *)
Theorem stream_without_data (self : WykopAPI) (tag_name : string)
        (page limit : Z) (sort type : string) (year month : option Z)
        (response : Response) (d : dict) :
  Py.truthy (token self) = true ->
  transport (client self)
            (stream_request self tag_name page limit sort type year month)
  = Ok response ->
  success response ->
  json response = Some (PDict d) ->
  Py.lookup "data" d = None ->
  fst (get_entries tag_name page limit sort type year month self)
  = Raise (KeyError "data").
Proof.
  intros Htok Hsend Hstatus Hjson Hnone.
  rewrite (get_entries_answered transport L E link_model entry_model self
             tag_name page limit sort type year month response (PDict d)
             Htok Hsend Hstatus Hjson).
  cbn [Py.getitem]. now rewrite Hnone.
Qed.

(** X15.  How the data field of a 2xx stream answer is consumed.  A list
    goes through the loop.  None, a boolean and an integer cannot be
    iterated: TypeError.  A dict is iterated by its keys and a string by
    its characters, none of which has a get method: AttributeError, unless
    the dict or the string is empty, in which case the call returns the
    empty list. *)
Theorem stream_data_field (self : WykopAPI) (tag_name : string)
        (page limit : Z) (sort type : string) (year month : option Z)
        (response : Response) (body data : pyobj) :
  Py.truthy (token self) = true ->
  transport (client self)
            (stream_request self tag_name page limit sort type year month)
  = Ok response ->
  success response ->
  json response = Some body ->
  Py.getitem body "data" = Ok data ->
  fst (get_entries tag_name page limit sort type year month self)
  = match data with
    | PList items => collect L E link_model entry_model [] items
    | PNone | PBool _ | PInt _ => Raise TypeError
    | PDict [] => Ok []
    | PDict (_ :: _) => Raise AttributeError
    | PStr s => if Str.empty s then Ok [] else Raise AttributeError
    end.
Proof.
  intros Htok Hsend Hstatus Hjson Hdata.
  rewrite (get_entries_answered transport L E link_model entry_model self
             tag_name page limit sort type year month response body
             Htok Hsend Hstatus Hjson).
  rewrite Hdata. cbn [rbind].
  destruct data as [| | |s| |d]; try reflexivity.
  - now destruct s.
  - now destruct d as [|[k v] d].
Qed.

(** X16.  All or nothing: when the data list of a 2xx stream answer holds
    an object the loop cannot take, after objects it can, the call raises
    at that object and returns no item: AttributeError when the object is
    not a dict, the validation error when its model refuses it. *)
Theorem stream_first_bad_object (self : WykopAPI) (tag_name : string)
        (page limit : Z) (sort type : string) (year month : option Z)
        (response : Response) (body : pyobj) (good : list pyobj)
        (bad : pyobj) (rest : list pyobj) :
  Py.truthy (token self) = true ->
  transport (client self)
            (stream_request self tag_name page limit sort type year month)
  = Ok response ->
  success response ->
  json response = Some body ->
  Py.getitem body "data" = Ok (PList (good ++ bad :: rest)) ->
  Forall (parses link_model entry_model) good ->
  ~ parses link_model entry_model bad ->
  fst (get_entries tag_name page limit sort type year month self)
  = Raise (if is_dict bad then ValidationError else AttributeError).
Proof.
  intros Htok Hsend Hstatus Hjson Hdata Hgood Hbad.
  rewrite (get_entries_answered transport L E link_model entry_model self
             tag_name page limit sort type year month response body
             Htok Hsend Hstatus Hjson).
  rewrite Hdata. cbn [rbind Py.iter].
  now apply collect_first_bad.
Qed.

(** X17.  On a 2xx stream answer whose data field is a list,
    [get_entries_by_tag] returns exactly when every object of the list is a
    dict that the model selected by its description accepts; and what it
    returns then matches the list object by object. *)
Theorem stream_returns_iff (self : WykopAPI) (tag_name : string)
        (page limit : Z) (sort type : string) (year month : option Z)
        (response : Response) (body : pyobj) (objects : list pyobj) :
  Py.truthy (token self) = true ->
  transport (client self)
            (stream_request self tag_name page limit sort type year month)
  = Ok response ->
  success response ->
  json response = Some body ->
  Py.getitem body "data" = Ok (PList objects) ->
  ((exists items,
       fst (get_entries tag_name page limit sort type year month self)
       = Ok items)
   <-> Forall (parses link_model entry_model) objects)
  /\ forall items,
      fst (get_entries tag_name page limit sort type year month self)
      = Ok items ->
      Forall2 (parsed_as link_model entry_model) objects items.
Proof.
  intros Htok Hsend Hstatus Hjson Hdata.
  rewrite (get_entries_answered transport L E link_model entry_model self
             tag_name page limit sort type year month response body
             Htok Hsend Hstatus Hjson).
  rewrite Hdata. cbn [rbind Py.iter].
  split; [split|].
  - intros [items Hrun].
    exact (proj1 (collect_ok_inv L E link_model entry_model objects [] items
                    Hrun)).
  - intros Hall.
    destruct (parses_forall_split L E link_model entry_model objects Hall)
      as [Hdict Hvalid].
    destruct (collect_ok L E link_model entry_model objects Hdict Hvalid [])
      as (items & Hrun & _).
    now exists items.
  - intros items Hrun.
    destruct (collect_ok_inv L E link_model entry_model objects [] items Hrun)
      as (_ & items' & -> & Hitems).
    exact Hitems.
Qed.

End FeedExtras.

(** ** The constructor, again *)

Section ConstructorMore.

Lemma lstrip_fixed (t : string) :
  (forall c, Str.first_char t = Some c -> Str.isspace c = false) ->
  Str.lstrip t = t.
Proof.
  destruct t as [|a t]; [reflexivity|]. intros H.
  cbn [Str.lstrip]. now rewrite (H a eq_refl).
Qed.

Lemma rstrip_fixed (t : string) :
  (forall c, Str.last_char t = Some c -> Str.isspace c = false) ->
  Str.rstrip t = t.
Proof.
  induction t as [|a t IH]; [reflexivity|]. intros H.
  cbn [Str.rstrip]. cbv zeta. destruct t as [|b t].
  - cbn [Str.rstrip Str.empty]. now rewrite (H a eq_refl).
  - rewrite IH; [|exact H]. cbn [Str.empty]. now rewrite andb_false_r.
Qed.

Lemma strip_idempotent (s : string) : Str.strip (Str.strip s) = Str.strip s.
Proof.
  unfold Str.strip at 1.
  rewrite lstrip_fixed.
  - apply rstrip_fixed. intros c. apply rstrip_last.
  - intros c H. unfold Str.strip in H.
    now apply rstrip_first, lstrip_first in H.
Qed.

Lemma lstrip_all_space (s : string) :
  Str.all_space s = true -> Str.lstrip s = EmptyString.
Proof.
  induction s as [|c s IH]; [reflexivity|].
  cbn [Str.all_space Str.lstrip]. intros H.
  apply andb_true_iff in H as [Hc Hs]. rewrite Hc. now apply IH.
Qed.

Lemma strip_empty_inv (s : string) :
  Str.strip s = EmptyString -> Str.all_space s = true.
Proof.
  intros H. destruct (strip_spec s) as (l & r & Hs & Hl & Hr & _).
  rewrite H in Hs. cbn [append] in Hs. subst s. clear H.
  induction l as [|c l IH]; [exact Hr|].
  cbn [append Str.all_space] in *.
  apply andb_true_iff in Hl as [Hc Hl]. rewrite Hc. now apply IH.
Qed.

(** X18.  Building a client again from the fields of a client the
    constructor built gives that client back: the stored key and secret
    are already stripped. *)
Theorem constructor_idempotent (key sec base : string) :
  let self := init key sec base in
  init (app_key self) (secret self) (base_url self) = self
  /\ Str.strip (app_key self) = app_key self
  /\ Str.strip (secret self) = secret self.
Proof.
  cbv zeta. unfold init. cbn [app_key secret base_url].
  rewrite !strip_idempotent. repeat split.
Qed.

(** X19.  The constructor stores the empty string as key exactly when the
    key it is given is made of white space only (the empty key included);
    the same holds for the secret. *)
Theorem constructor_blank_credentials (key sec base : string) :
  (app_key (init key sec base) = EmptyString <-> Str.all_space key = true)
  /\ (secret (init key sec base) = EmptyString <-> Str.all_space sec = true).
Proof.
  cbn [init app_key secret].
  split; (split; [apply strip_empty_inv|]);
    intros H; unfold Str.strip; now rewrite (lstrip_all_space _ H).
Qed.

End ConstructorMore.

(** ** The further statements at sample inputs *)

Lemma token_reply_grants (t : string) :
  grants (Sample.token_reply t) (PStr t).
Proof.
  split; [reflexivity|].
  exists (PDict [("data", PDict [("token", PStr t)])]),
         (PDict [("token", PStr t)]).
  repeat split.
Qed.

Lemma success_200 (body : string) (decoded : option pyobj) :
  success (mkResponse 200 body decoded).
Proof. unfold success. cbn [status_code]. lia. Qed.

Lemma authenticate_rejected_witness :
  fst (authenticate (Sample.always Scenario.unauthorized) Sample.logged_in)
  = Raise (Exception "Failed to authenticate: 401 - {...}")
  /\ token (snd (authenticate (Sample.always Scenario.unauthorized)
                   Sample.logged_in))
     = PStr "jwt".
Proof.
  destruct (authenticate_rejected (Sample.always Scenario.unauthorized)
              Sample.logged_in Scenario.unauthorized
              (PDict [("error", PStr "bad key")]) eq_refl eq_refl)
    as (Hraise & Htoken & _).
  - intros H. discriminate H.
  - split; [exact Hraise|exact Htoken].
Defined.

Lemma authenticate_missing_key_witness :
  fst (authenticate (Sample.always Scenario.no_token) Sample.fresh)
  = Raise (KeyError "token")
  /\ token (snd (authenticate (Sample.always Scenario.no_token) Sample.fresh))
     = PNone.
Proof.
  apply (authenticate_missing_key (Sample.always Scenario.no_token)
           Sample.fresh Scenario.no_token [("data", PDict [])]
           eq_refl eq_refl eq_refl).
  right. exists []. split; reflexivity.
Defined.

Lemma reauthentication_replaces_token_witness :
  token (snd ((authenticate
                 (Scenario.scripted [Sample.token_reply "first";
                                     Sample.token_reply "second"]) ;;;
               authenticate
                 (Scenario.scripted [Sample.token_reply "first";
                                     Sample.token_reply "second"]))
                Sample.fresh))
  = PStr "second".
Proof.
  rewrite (reauthentication_replaces_token
             (Scenario.scripted [Sample.token_reply "first";
                                 Sample.token_reply "second"])
             Sample.fresh
             (Sample.token_reply "first") (Sample.token_reply "second")
             (PStr "first") (PStr "second")
             eq_refl (token_reply_grants "first")
             eq_refl (token_reply_grants "second")).
  reflexivity.
Defined.

Lemma request_carries_granted_token_witness :
  map headers
      (client (snd ((authenticate
                       (Scenario.scripted [Sample.token_reply "granted";
                                           Sample.empty_reply]) ;;;
                     make_request
                       (Scenario.scripted [Sample.token_reply "granted";
                                           Sample.empty_reply])
                       "tags/popular" "get" None None)
                      Sample.fresh)))
  = [JSON_HEADERS;
     ("Authorization", Bearer (PStr "granted")) :: JSON_HEADERS].
Proof.
  destruct (request_carries_granted_token
              (Scenario.scripted [Sample.token_reply "granted";
                                  Sample.empty_reply])
              Sample.fresh (Sample.token_reply "granted") (PStr "granted")
              "tags/popular" "get" None None GET
              eq_refl (token_reply_grants "granted") eq_refl eq_refl)
    as [Hrun _].
  rewrite Hrun. reflexivity.
Defined.

Lemma make_request_status_error_witness :
  fst (make_request (Sample.always Scenario.not_found) "tags/none" "GET"
         None None Sample.logged_in)
  = Raise (HTTPStatusError 404 "{...}").
Proof.
  rewrite (make_request_status_error (Sample.always Scenario.not_found)
             Sample.logged_in "tags/none" "GET" None None GET
             Scenario.not_found eq_refl eq_refl eq_refl).
  - reflexivity.
  - unfold success. cbn [status_code Scenario.not_found]. lia.
Defined.

Lemma make_request_returns_body_witness :
  fst (make_request (Sample.always (Sample.stream_reply [])) "tags/popular"
         "GET" None None Sample.logged_in)
  = Ok (PDict [("data", PList [])])
  /\ fst (make_request (Sample.always Scenario.garbled) "tags/popular"
            "GET" None None Sample.logged_in)
     = Raise JSONDecodeError.
Proof.
  split.
  - apply (make_request_returns_body (Sample.always (Sample.stream_reply []))
             Sample.logged_in "tags/popular" "GET" None None GET
             (Sample.stream_reply []) eq_refl eq_refl eq_refl
             (success_200 _ _)).
  - apply (make_request_returns_body (Sample.always Scenario.garbled)
             Sample.logged_in "tags/popular" "GET" None None GET
             Scenario.garbled eq_refl eq_refl eq_refl (success_200 _ _)).
Defined.

(** The call of the example at the end of the module: a body passed with
    the default method, GET, is not sent. *)
Lemma make_request_drops_unused_argument_witness :
  make_request (Sample.always Sample.empty_reply) "/tags/popular-user-tags"
    "GET" None (Some [("key", PStr "value")]) Sample.logged_in
  = make_request (Sample.always Sample.empty_reply) "/tags/popular-user-tags"
      "GET" None None Sample.logged_in.
Proof.
  apply (make_request_drops_unused_argument (Sample.always Sample.empty_reply)
           Sample.logged_in "/tags/popular-user-tags" "GET"
           None (Some [("key", PStr "value")]) None None GET eq_refl).
Defined.

Lemma make_request_transport_failure_witness :
  make_request Scenario.down "tags/popular" "GET" None None Sample.logged_in
  = (Raise TransportError,
     log_request
       (dispatched_request Sample.logged_in "tags/popular" GET None None)
       Sample.logged_in).
Proof.
  apply (make_request_transport_failure Scenario.down Sample.logged_in
           "tags/popular" "GET" None None GET TransportError
           eq_refl eq_refl eq_refl).
Defined.

Lemma make_request_ignores_case_witness :
  make_request (Sample.always Sample.empty_reply) "tags/popular" "delete"
    None None Sample.logged_in
  = make_request (Sample.always Sample.empty_reply) "tags/popular" "DeLeTe"
      None None Sample.logged_in.
Proof.
  apply (make_request_ignores_case (Sample.always Sample.empty_reply)
           Sample.logged_in "tags/popular" "delete" "DeLeTe" None None
           eq_refl).
Defined.

Lemma normalize_endpoint_idempotent_witness :
  Str.endswith (normalize_endpoint "tags/popular/") "/" = false
  /\ normalize_endpoint (normalize_endpoint "tags/popular/")
     = normalize_endpoint "tags/popular/".
Proof.
  apply (normalize_endpoint_idempotent "tags/popular/" eq_refl).
Defined.

(** With two slashes at the end, one is left, and a second pass takes it. *)
Example double_slash_not_idempotent :
  normalize_endpoint "a//" = "/a/"
  /\ normalize_endpoint (normalize_endpoint "a//") = "/a".
Proof. split; reflexivity. Qed.

Lemma stream_without_data_witness :
  fst (get_entries_by_tag (Sample.always Scenario.no_data) pyobj pyobj
         Sample.any_model Sample.any_model "rocq" 1 25 "best" "all"
         None None Sample.logged_in)
  = Raise (KeyError "data").
Proof.
  apply (stream_without_data (Sample.always Scenario.no_data) pyobj pyobj
           Sample.any_model Sample.any_model Sample.logged_in
           "rocq" 1 25 "best" "all" None None Scenario.no_data
           [("error", PStr "oops")]
           eq_refl eq_refl (success_200 _ _) eq_refl eq_refl).
Defined.

Lemma stream_data_field_witness :
  fst (get_entries_by_tag (Sample.always Scenario.no_token) pyobj pyobj
         Sample.any_model Sample.any_model "rocq" 1 25 "best" "all"
         None None Sample.logged_in)
  = Ok [].
Proof.
  apply (stream_data_field (Sample.always Scenario.no_token) pyobj pyobj
           Sample.any_model Sample.any_model Sample.logged_in
           "rocq" 1 25 "best" "all" None None Scenario.no_token
           (PDict [("data", PDict [])]) (PDict [])
           eq_refl eq_refl (success_200 _ _) eq_refl eq_refl).
Defined.

Lemma stream_first_bad_object_witness :
  fst (get_entries_by_tag
         (Sample.always
            (Sample.stream_reply
               [Sample.entry1; Scenario.anonymous; Sample.link2]))
         pyobj pyobj Scenario.with_id Scenario.with_id
         "rocq" 1 25 "best" "all" None None Sample.logged_in)
  = Raise ValidationError.
Proof.
  apply (stream_first_bad_object
           (Sample.always
              (Sample.stream_reply
                 [Sample.entry1; Scenario.anonymous; Sample.link2]))
           pyobj pyobj Scenario.with_id Scenario.with_id Sample.logged_in
           "rocq" 1 25 "best" "all" None None
           (Sample.stream_reply
              [Sample.entry1; Scenario.anonymous; Sample.link2])
           (PDict [("data", PList [Sample.entry1; Scenario.anonymous;
                                   Sample.link2])])
           [Sample.entry1] Scenario.anonymous [Sample.link2]
           eq_refl eq_refl (success_200 _ _) eq_refl eq_refl).
  - constructor; [|constructor].
    split; [reflexivity|]. unfold validates. cbn. intros H. discriminate H.
  - intros [_ Hv]. unfold validates in Hv. cbn in Hv. now apply Hv.
Defined.

Lemma stream_returns_iff_witness :
  exists items,
    fst (get_entries_by_tag
           (Sample.always (Sample.stream_reply [Sample.entry1; Sample.link2]))
           pyobj pyobj Scenario.with_id Scenario.with_id
           "rocq" 1 25 "best" "all" None None Sample.logged_in)
    = Ok items.
Proof.
  apply (proj1 (stream_returns_iff
                  (Sample.always
                     (Sample.stream_reply [Sample.entry1; Sample.link2]))
                  pyobj pyobj Scenario.with_id Scenario.with_id
                  Sample.logged_in "rocq" 1 25 "best" "all" None None
                  (Sample.stream_reply [Sample.entry1; Sample.link2])
                  (PDict [("data", PList [Sample.entry1; Sample.link2])])
                  [Sample.entry1; Sample.link2]
                  eq_refl eq_refl (success_200 _ _) eq_refl eq_refl)).
  repeat constructor; unfold validates; cbn; intros H; discriminate H.
Defined.
